(** * The chat session controller of filter_waifu

    A shallow embedding of the [App] component of the two React front ends
    of the repository:

    - the chat front end ([App.jsx] posting to [/api/chat], reading the
      [reply] / [message] fields of the answer), called [Chat] below;
    - the filter front end ([front/src/App.jsx], posting to
      [http://localhost:8000/api/chat], reading [content] and [is_safe]),
      called [Filter] below.

    The component state ([messages], [input], [isLoading], [error]) is a
    record, [handleSubmit] is cut at its two [await]s into the three pieces
    that run between suspensions, and the browser (user events, the network)
    is a list of events driving a step function.

    What is taken from React: a handler sees the state of the latest render
    (updates made in an event are rendered before the next event), a value
    given to a setter replaces the cell, a function given to a setter is
    applied to the current cell by the next render, a plain object is not a
    valid child of an element, and a render that throws removes the
    component.  The scrolling effect and [event.preventDefault()] are not
    modelled. *)

From Stdlib Require Import Ascii String DecimalString DecimalNat NArith ZArith Bool
  List Lia.
Import ListNotations.

Set Implicit Arguments.
#[local] Set Warnings "-register-all".

(* ===================================================================== *)
(** ** JavaScript strings *)
(* ===================================================================== *)

(** A JavaScript string is a sequence of UTF-16 code units. *)
Definition jsstring := list N.

(** The source files are UTF-8; [js] turns a literal of the source, read as
    its UTF-8 bytes, into the code units the JavaScript engine sees. *)
Fixpoint bytes_of (s : string) : list N :=
  match s with
  | EmptyString => []
  | String c rest => N_of_ascii c :: bytes_of rest
  end.

Definition continuation (b : N) : N := b mod 64.

Fixpoint decode_utf8 (bs : list N) : list N :=
  match bs with
  | [] => []
  | b0 :: t0 =>
    if b0 <? 128 then b0 :: decode_utf8 t0
    else match t0 with
    | [] => [65533]
    | b1 :: t1 =>
      if b0 <? 224 then ((b0 mod 32) * 64 + continuation b1) :: decode_utf8 t1
      else match t1 with
      | [] => [65533]
      | b2 :: t2 =>
        if b0 <? 240
        then ((b0 mod 16) * 4096 + continuation b1 * 64 + continuation b2)
               :: decode_utf8 t2
        else match t2 with
        | [] => [65533]
        | b3 :: t3 =>
          ((b0 mod 8) * 262144 + continuation b1 * 4096
             + continuation b2 * 64 + continuation b3) :: decode_utf8 t3
        end
      end
    end
  end%N.

(** A code point above the basic plane becomes a surrogate pair. *)
Definition code_units (cp : N) : list N :=
  if (cp <? 65536)%N then [cp]
  else [55296 + (cp - 65536) / 1024; 56320 + (cp - 65536) mod 1024]%N.

Definition js (s : string) : jsstring :=
  flat_map code_units (decode_utf8 (bytes_of s)).

Fixpoint jsstring_eqb (a b : jsstring) : bool :=
  match a, b with
  | [], [] => true
  | x :: a', y :: b' => (x =? y)%N && jsstring_eqb a' b'
  | _, _ => false
  end.

(** *** [String.prototype.trim]

    The code units removed by [trim]: ECMAScript's WhiteSpace (TAB, VT, FF,
    ZWNBSP and the space separators of Unicode) and LineTerminator (LF, CR,
    LS, PS).  All of them are in the basic plane, one code unit each. *)
Definition isWhiteSpace (c : N) : bool :=
  ((c =? 9) || (c =? 10) || (c =? 11) || (c =? 12) || (c =? 13) || (c =? 32)
   || (c =? 160) || (c =? 5760)
   || ((8192 <=? c) && (c <=? 8202))
   || (c =? 8232) || (c =? 8233) || (c =? 8239) || (c =? 8287)
   || (c =? 12288) || (c =? 65279))%N.

Fixpoint trimStart (s : jsstring) : jsstring :=
  match s with
  | [] => []
  | c :: rest => if isWhiteSpace c then trimStart rest else s
  end.

Definition trimEnd (s : jsstring) : jsstring := rev (trimStart (rev s)).

Definition trim (s : jsstring) : jsstring := trimEnd (trimStart s).

(** No white space at the start, at the end. *)
Definition startsClean (s : jsstring) : bool :=
  match s with
  | [] => true
  | c :: _ => negb (isWhiteSpace c)
  end.

Definition endsClean (s : jsstring) : bool := startsClean (rev s).

(** [!s] for a string [s]: only the empty string is falsy. *)
Definition falsy (s : jsstring) : bool :=
  match s with [] => true | _ :: _ => false end.

(* ===================================================================== *)
(** ** Exceptions *)
(* ===================================================================== *)

(** What can be thrown inside the [try] block of [handleSubmit]. *)
Inductive JsError : Type :=
| NetworkError                      (* fetch() rejects *)
| Error (message : jsstring)        (* throw new Error(...) *)
| BodyError                         (* response.json() rejects *)
| TypeError                         (* a value cannot be converted *)
| InvalidChild.                     (* React: objects are not valid as a child *)

Inductive completion (A : Type) : Type :=
| Normal (a : A)
| Throw (e : JsError).
Arguments Normal {A} a.
Arguments Throw {A} e.

Definition bind {A B} (c : completion A) (k : A -> completion B)
  : completion B :=
  match c with
  | Normal a => k a
  | Throw e => Throw e
  end.

Notation "x <- c ;; k" := (bind c (fun x => k))
  (at level 61, c at next level, right associativity).

(* ===================================================================== *)
(** ** Values *)
(* ===================================================================== *)

Section Values.

(** JavaScript numbers are IEEE doubles; the controller never computes with
    them, it can only print one ([Number::toString]).  Both are taken as
    given. *)
Variable number : Type.
Variable NumberToString : number -> jsstring.

(** The values [response.json()] can produce, and [undefined].  An object
    is the list of its own properties (after [JSON.parse], so each key
    occurs once). *)
Inductive JsVal : Type :=
| JUndefined
| JNull
| JBool (b : bool)
| JNum (n : number)
| JStr (s : jsstring)
| JArr (elems : list JsVal)
| JObj (props : list (jsstring * JsVal)).

Fixpoint ownProperty (key : jsstring) (props : list (jsstring * JsVal))
  : option JsVal :=
  match props with
  | [] => None
  | (k, v) :: rest => if jsstring_eqb k key then Some v else ownProperty key rest
  end.

(** [v?.key], for the keys the controller reads ([reply], [message],
    [content], [is_safe]): none of them is defined on a built-in prototype,
    so only an own property of an object can answer; [null?.key] and a
    property that is missing are [undefined]. *)
Definition optGet (v : JsVal) (key : jsstring) : JsVal :=
  match v with
  | JObj props =>
    match ownProperty key props with
    | Some x => x
    | None => JUndefined
    end
  | _ => JUndefined
  end.

Definition nullish (v : JsVal) : bool :=
  match v with
  | JUndefined | JNull => true
  | _ => false
  end.

(** [a ?? b] *)
Definition coalesce (a b : JsVal) : JsVal := if nullish a then b else a.

(** [v === false] *)
Definition isFalse (v : JsVal) : bool :=
  match v with
  | JBool false => true
  | _ => false
  end.

(** [ToString], as [+] applies it to an operand when the other one is a
    string.  An array prints through [Array.prototype.join]: elements
    separated by commas, [null] and [undefined] as nothing.  An object
    parsed from JSON prints as [[object Object]] unless it has an own
    property [toString]: that value is not callable, the inherited
    [valueOf] answers the object itself, and the conversion throws a
    TypeError. *)
Fixpoint ToString (v : JsVal) : completion jsstring :=
  match v with
  | JUndefined => Normal (js "undefined")
  | JNull => Normal (js "null")
  | JBool true => Normal (js "true")
  | JBool false => Normal (js "false")
  | JNum n => Normal (NumberToString n)
  | JStr s => Normal s
  | JArr elems =>
    (fix join (l : list JsVal) : completion jsstring :=
       match l with
       | [] => Normal []
       | x :: rest =>
         first <- (if nullish x then Normal [] else ToString x) ;;
         match rest with
         | [] => Normal first
         | _ :: _ => others <- join rest ;; Normal (first ++ js "," ++ others)
         end
       end) elems
  | JObj props =>
    match ownProperty (js "toString") props with
    | Some _ => Throw TypeError
    | None => Normal (js "[object Object]")
    end
  end.

(** The values [ToString] converts: all but an object with an own property
    [toString], and the arrays that hold one. *)
Fixpoint printable (v : JsVal) : bool :=
  match v with
  | JArr elems =>
    (fix all (l : list JsVal) : bool :=
       match l with
       | [] => true
       | x :: rest => printable x && all rest
       end) elems
  | JObj props =>
    match ownProperty (js "toString") props with
    | Some _ => false
    | None => true
    end
  | _ => true
  end.

(** The values React accepts as the child [{message.content}] of an
    element: a string or a number is drawn as text, [true], [false], [null]
    and [undefined] draw nothing, an array is drawn child by child, and an
    object that is not a React element (no object parsed from JSON is one)
    makes the render throw. *)
Fixpoint renderable (v : JsVal) : bool :=
  match v with
  | JArr elems =>
    (fix all (l : list JsVal) : bool :=
       match l with
       | [] => true
       | x :: rest => renderable x && all rest
       end) elems
  | JObj _ => false
  | _ => true
  end.

(** [a + b] where [b] is a string. *)
Definition concat (a : JsVal) (b : jsstring) : completion JsVal :=
  s <- ToString a ;; Normal (JStr (s ++ b)).

End Values.

Arguments JUndefined {number}.
Arguments JNull {number}.
Arguments JBool {number} b.
Arguments JStr {number} s.
Arguments JArr {number} elems.
Arguments JObj {number} props.

(** Numbers for the examples: a double of integral value (and magnitude
    below 10^21) prints as the decimal integer. *)
Definition printInteger (z : Z) : jsstring :=
  js (NilZero.string_of_int (Z.to_int z)).


(* ===================================================================== *)
(** ** The two front ends *)
(* ===================================================================== *)

Inductive variant : Type :=
| Chat      (* App.jsx of the chat front end *)
| Filter.   (* front/src/App.jsx *)

Definition greeting (v : variant) : jsstring :=
  match v with
  | Chat => js "안녕하세요! 궁금한 내용을 입력하면 바로 답변해드릴게요."
  | Filter => js "안녕하세요! 내용을 입력하시면 적절한 문장인지 판단해드릴게요."
  end.

Definition endpoint (v : variant) : jsstring :=
  match v with
  | Chat => js "/api/chat"
  | Filter => js "http://localhost:8000/api/chat"
  end.

(** The literals of [handleSubmit]. *)
Definition httpErrorMessage : jsstring := js "응답을 가져오지 못했습니다.".
Definition fallbackReply : jsstring := js "답변을 가져오지 못했습니다.".
Definition filterNotice : jsstring :=
  js " (필터에 의해 부적절한 표현으로 판단되었습니다.)".
Definition sendFailure : jsstring :=
  js "메시지를 보내지 못했어요. 서버 상태를 확인해주세요.".

(** [response.ok]: the status is in the range 200-299. *)
Record Response : Type := { status : N }.

Definition ok (response : Response) : bool :=
  ((200 <=? status response) && (status response <=? 299))%N.

(** Where an invocation of [handleSubmit] is suspended. *)
Inductive Task : Type :=
| AwaitingFetch     (* at [await fetch(...)] *)
| AwaitingJson.     (* at [await response.json()] *)

Section Controller.

Variable number : Type.
Variable NumberToString : number -> jsstring.

Record Message : Type := { role : jsstring; content : JsVal number }.

(** [const initialMessages = [{ role: 'assistant', content: ... }]] *)
Definition initialMessages (v : variant) : list Message :=
  [ {| role := js "assistant"; content := JStr (greeting v) |} ].

(** The four [useState] cells of [App]. *)
Record AppState : Type := {
  messages : list Message;
  input : jsstring;
  isLoading : bool;
  error : jsstring
}.

Definition setMessages (value : list Message) (st : AppState) : AppState :=
  {| messages := value; input := input st;
     isLoading := isLoading st; error := error st |}.

(** [setMessages((prev) => ...)]: React calls the function on the current
    cell while it renders; what the function throws is thrown by that
    render, not by the call of [setMessages]. *)
Definition setMessagesWith (f : list Message -> completion (list Message))
    (st : AppState) : completion AppState :=
  next <- f (messages st) ;;
  Normal {| messages := next; input := input st;
            isLoading := isLoading st; error := error st |}.

Definition setInput (value : jsstring) (st : AppState) : AppState :=
  {| messages := messages st; input := value;
     isLoading := isLoading st; error := error st |}.

Definition setIsLoading (value : bool) (st : AppState) : AppState :=
  {| messages := messages st; input := input st;
     isLoading := value; error := error st |}.

Definition setError (value : jsstring) (st : AppState) : AppState :=
  {| messages := messages st; input := input st;
     isLoading := isLoading st; error := value |}.

(** [useMemo(() => input.trim(), [input])] *)
Definition trimmedInput (st : AppState) : jsstring := trim (input st).

(** The argument of [fetch]; [body] is the value given to
    [JSON.stringify]. *)
Record Request : Type := {
  url : jsstring;
  method : jsstring;
  headers : list (jsstring * jsstring);
  body : JsVal number
}.

Definition messageValue (m : Message) : JsVal number :=
  JObj [ (js "role", JStr (role m)); (js "content", content m) ].

Definition chatRequest (v : variant) (nextMessages : list Message) : Request :=
  {| url := endpoint v;
     method := js "POST";
     headers := [ (js "Content-Type", js "application/json") ];
     body := JObj [ (js "messages", JArr (map messageValue nextMessages)) ] |}.

(** [handleSubmit], from the event to the first [await]: the guard, the
    four state updates, and the call of [fetch]. *)
Definition handleSubmit (v : variant) (st : AppState)
  : AppState * option Request :=
  if falsy (trimmedInput st) || isLoading st then (st, None)
  else
    let nextMessages :=
      messages st ++ [ {| role := js "user"; content := JStr (trimmedInput st) |} ] in
    let st := setMessages nextMessages st in
    let st := setInput (js "") st in
    let st := setError (js "") st in
    let st := setIsLoading true st in
    (st, Some (chatRequest v nextMessages)).

(** [catch (fetchError) { setError(...) } finally { setIsLoading(false) }];
    the error itself only goes to the console. *)
Definition catchFinally (st : AppState) : AppState :=
  setIsLoading false (setError sendFailure st).

(** [if (!response.ok) throw new Error(...)] *)
Definition checkOk (response : Response) : completion Response :=
  if negb (ok response) then Throw (Error httpErrorMessage)
  else Normal response.

(** [handleSubmit], from the settling of [fetch] to the second [await] (or
    to the end, through [catch] and [finally]). *)
Definition handleSubmit_fetched (settled : completion Response) (st : AppState)
  : AppState * option Task :=
  match (response <- settled ;; checkOk response) with
  | Normal _ => (st, Some AwaitingJson)
  | Throw _ => (catchFinally st, None)
  end.

(** The content of the assistant message: what the [try] block takes from
    the parsed body and what the function given to [setMessages] makes of
    it.

    Chat:   [reply = data?.reply ?? data?.message ?? '...'],
            then [content: reply].
    Filter: [reply = data?.content ?? '...'] and
            [extra = data?.is_safe === false ? '...' : ''],
            then [content: reply + extra]. *)
Definition assistantContent (v : variant) (data : JsVal number)
  : completion (JsVal number) :=
  match v with
  | Chat =>
    let reply :=
      coalesce (coalesce (optGet data (js "reply")) (optGet data (js "message")))
               (JStr fallbackReply) in
    Normal reply
  | Filter =>
    let reply := coalesce (optGet data (js "content")) (JStr fallbackReply) in
    let extra :=
      if isFalse (optGet data (js "is_safe")) then filterNotice else js "" in
    concat NumberToString reply extra
  end.

(** [<p className="chat__bubble">{message.content}</p>] under
    [messages.map]: the render draws the content of every message as a
    child, and throws when one of them is not a valid child. *)
Definition drawBubbles (st : AppState) : completion AppState :=
  if forallb (fun message => renderable (content message)) (messages st)
  then Normal st
  else Throw InvalidChild.

(** [handleSubmit], from the settling of [response.json()] to the end, with
    the render that follows.  A rejection goes to [catch].  Otherwise the
    update of [messages] is queued and [finally] runs; the function of the
    update is called by the render, outside the [try], so that what it
    throws is thrown by the render; the render then draws the new
    transcript.  (The state a handler starts from has been drawn, and the
    other pieces of [handleSubmit] add nothing but strings to the
    transcript: this is the one render that can meet a new kind of
    child.) *)
Definition handleSubmit_parsed (v : variant)
    (settled : completion (JsVal number)) (st : AppState)
  : completion AppState :=
  match settled with
  | Normal data =>
    st <- setMessagesWith
            (fun prev =>
               reply <- assistantContent v data ;;
               Normal (prev ++ [ {| role := js "assistant"; content := reply |} ]))
            st ;;
    st <- drawBubbles st ;;
    Normal (setIsLoading false st)
  | Throw _ => Normal (catchFinally st)
  end.

(** *** The component in its environment

    [tasks] are the suspended invocations of [handleSubmit], oldest first;
    [sent] is every request handed to [fetch] so far. *)
Record World : Type := {
  app : AppState;
  tasks : list Task;
  sent : list Request
}.

(** When a render throws, React removes the component (everything below
    the nearest error boundary, the whole page without one), and its state
    with it. *)
Inductive Page : Type :=
| Mounted (w : World)
| Unmounted (e : JsError).

Definition init (v : variant) : World :=
  {| app := {| messages := initialMessages v; input := js "";
               isLoading := false; error := js "" |};
     tasks := [];
     sent := [] |}.

(** What happens to the component.  [Change] is the [onChange] of the
    textarea and [Submit] the [onSubmit] of the form; each handler sees the
    state of the latest render.  The textarea is disabled while [isLoading],
    the model lets it change all the same. *)
Inductive Event : Type :=
| Change (value : jsstring)
| Submit
| FetchSettled (settled : completion Response)
| JsonSettled (settled : completion (JsVal number)).

(** One event; [None] when it cannot happen in this state. *)
Definition step (v : variant) (w : World) (e : Event) : option Page :=
  match e with
  | Change value =>
    Some (Mounted {| app := setInput value (app w); tasks := tasks w;
                     sent := sent w |})
  | Submit =>
    match handleSubmit v (app w) with
    | (st, None) =>
      Some (Mounted {| app := st; tasks := tasks w; sent := sent w |})
    | (st, Some request) =>
      Some (Mounted {| app := st; tasks := tasks w ++ [AwaitingFetch];
                       sent := sent w ++ [request] |})
    end
  | FetchSettled settled =>
    match tasks w with
    | AwaitingFetch :: rest =>
      match handleSubmit_fetched settled (app w) with
      | (st, Some task) =>
        Some (Mounted {| app := st; tasks := task :: rest; sent := sent w |})
      | (st, None) =>
        Some (Mounted {| app := st; tasks := rest; sent := sent w |})
      end
    | _ => None
    end
  | JsonSettled settled =>
    match tasks w with
    | AwaitingJson :: rest =>
      match handleSubmit_parsed v settled (app w) with
      | Normal st =>
        Some (Mounted {| app := st; tasks := rest; sent := sent w |})
      | Throw err => Some (Unmounted err)
      end
    | _ => None
    end
  end.

(** A list of events; nothing more happens to a component that was
    removed. *)
Fixpoint run (v : variant) (w : World) (events : list Event) : option Page :=
  match events with
  | [] => Some (Mounted w)
  | e :: rest =>
    match step v w e with
    | Some (Mounted w') => run v w' rest
    | Some (Unmounted err) => Some (Unmounted err)
    | None => None
    end
  end.

Definition reachable (v : variant) (w : World) : Prop :=
  exists events, run v (init v) events = Some (Mounted w).

(** Single flight: one suspended invocation while [isLoading], none
    otherwise. *)
Definition singleFlight (w : World) : Prop :=
  length (tasks w) = if isLoading (app w) then 1 else 0.

(** *** One request, from the submission to its end

    How the request of a submission goes: [fetch] rejects, or it resolves
    with a response whose [json()] then settles (read only when the response
    is [ok]). *)
Inductive Outcome : Type :=
| Unreachable (e : JsError)
| Answered (response : Response) (parsed : completion (JsVal number)).

(** The parsed body of a request that succeeds (a 2xx response whose body
    parses); a request fails when this throws: network error, other status,
    or a body that cannot be read. *)
Definition parsedBody (o : Outcome) : completion (JsVal number) :=
  match o with
  | Unreachable e => Throw e
  | Answered response parsed => _ <- checkOk response ;; parsed
  end.

(** How the request ends for the page. *)
Inductive Ending : Type :=
| Failed                                (* the [catch] block ran *)
| Replied (reply : JsVal number)        (* an assistant message was added *)
| Crashed (e : JsError).                (* the render threw *)

Definition ending (v : variant) (o : Outcome) : Ending :=
  match parsedBody o with
  | Throw _ => Failed
  | Normal data =>
    match assistantContent v data with
    | Normal reply =>
      if renderable reply then Replied reply else Crashed InvalidChild
    | Throw e => Crashed e
    end
  end.

(** The body names no reply: neither [reply] nor [message] (Chat), no
    [content] (Filter). *)
Definition noReply (v : variant) (data : JsVal number) : bool :=
  match v with
  | Chat =>
    nullish (optGet data (js "reply")) && nullish (optGet data (js "message"))
  | Filter => nullish (optGet data (js "content"))
  end.

(** The reply of the body can be put in a message and drawn: Chat stores
    it as it is, so that it has to be a valid child; Filter has to convert
    it to a string first. *)
Definition convertible (v : variant) (data : JsVal number) : bool :=
  match v with
  | Chat =>
    renderable
      (coalesce (coalesce (optGet data (js "reply")) (optGet data (js "message")))
                (JStr fallbackReply))
  | Filter => printable (optGet data (js "content"))
  end.

(** Every message of the transcript can be drawn. *)
Definition drawable (ms : list Message) : Prop :=
  forallb (fun message => renderable (content message)) ms = true.

Definition userEvent (e : Event) : bool :=
  match e with
  | Change _ | Submit => true
  | _ => false
  end.

(** The events that settle the request, with what the user does meanwhile:
    [during1] before [fetch] settles, [during2] before [json()] does. *)
Definition settling (o : Outcome) (during1 during2 : list Event) : list Event :=
  match o with
  | Unreachable e => during1 ++ [FetchSettled (Throw e)]
  | Answered response parsed =>
    during1 ++ FetchSettled (Normal response)
      :: (if ok response then during2 ++ [JsonSettled parsed] else [])
  end.

Definition userMessage (st : AppState) : Message :=
  {| role := js "user"; content := JStr (trimmedInput st) |}.

Definition assistantMessage (reply : JsVal number) : Message :=
  {| role := js "assistant"; content := reply |}.

(** The first transcript is the start of the second. *)
Definition prefix (before after : list Message) : Prop :=
  exists more, after = before ++ more.

(** A user message as [handleSubmit] writes it: a string that is not empty
    and has no white space at either end. *)
Definition trimmedUserMessage (m : Message) : Prop :=
  role m = js "user" ->
  exists s, content m = JStr s /\ s <> []
            /\ startsClean s = true /\ endsClean s = true.

Definition knownRole (m : Message) : Prop :=
  role m = js "user" \/ role m = js "assistant".

End Controller.

Arguments Change {number} value.
Arguments Submit {number}.
Arguments Unmounted {number} e.
Arguments Failed {number}.
Arguments Crashed {number} e.
Arguments FetchSettled {number} settled.
Arguments JsonSettled {number} settled.

(** *** Examples

    The page after some events, over integer numbers. *)
Definition afterEvents (v : variant) (events : list (Event Z)) : World Z :=
  match run printInteger v (init Z v) events with
  | Some (Mounted w) => w
  | _ => init Z v
  end.

(** The user typed [text] into a fresh page. *)
Definition typed (v : variant) (text : jsstring) : World Z :=
  afterEvents v [Change text].

(** A 200 response with this JSON body. *)
Definition answers (data : JsVal Z) : Outcome Z :=
  Answered {| status := 200 |} (Normal data).

(** A conversation with the chat front end: a request that fails, one that
    is answered, and a third one still in flight. *)
Definition conversation : list (Event Z) :=
  [ Change (js "hi"); Submit; FetchSettled (Normal {| status := 500 |});
    Change (js " again "); Submit; FetchSettled (Normal {| status := 200 |});
    JsonSettled (Normal (JObj [(js "reply", JStr (js "yo"))]));
    Change (js "more"); Submit ].

(** The network is down, the user sends the same text again. *)
Definition secondAttempt : list (Event Z) :=
  [ Change (js "hi"); Submit; FetchSettled (Throw NetworkError);
    Change (js "hi"); Submit ].

(** The server answers 503. *)
Definition unavailable : list (Event Z) :=
  [ Change (js "hi"); Submit; FetchSettled (Normal {| status := 503 |}) ].

(** The filter back end answers with a number, then with an array. *)
Definition oddContents : list (Event Z) :=
  [ Change (js "a"); Submit; FetchSettled (Normal {| status := 200 |});
    JsonSettled (Normal (JObj [(js "content", JNum 7%Z)]));
    Change (js "b"); Submit; FetchSettled (Normal {| status := 200 |});
    JsonSettled (Normal (JObj [(js "content", JArr [JBool true; JNull])])) ].

(** The filter back end answers with an array that holds an object with a
    property [toString]. *)
Definition unprintableContent : list (Event Z) :=
  [ Change (js "hi"); Submit; FetchSettled (Normal {| status := 200 |});
    JsonSettled
      (Normal (JObj [(js "content",
                      JArr [JObj [(js "toString", JBool true)]])])) ].


(* ===================================================================== *)
(** ** What [App] returns *)
(* ===================================================================== *)

(** The index of [messages.map((message, index) => ...)] inside a template
    literal: a non-negative integer prints in decimal. *)
Fixpoint digits (u : Decimal.uint) : jsstring :=
  match u with
  | Decimal.Nil => []
  | Decimal.D0 u' => 48%N :: digits u'
  | Decimal.D1 u' => 49%N :: digits u'
  | Decimal.D2 u' => 50%N :: digits u'
  | Decimal.D3 u' => 51%N :: digits u'
  | Decimal.D4 u' => 52%N :: digits u'
  | Decimal.D5 u' => 53%N :: digits u'
  | Decimal.D6 u' => 54%N :: digits u'
  | Decimal.D7 u' => 55%N :: digits u'
  | Decimal.D8 u' => 56%N :: digits u'
  | Decimal.D9 u' => 57%N :: digits u'
  end.

Definition indexString (index : nat) : jsstring := digits (Nat.to_uint index).

(** [Array.prototype.map]: the callback gets the element and its index. *)
Fixpoint mapIndexed {A B : Type} (f : A -> nat -> B) (l : list A) (index : nat)
  : list B :=
  match l with
  | [] => []
  | x :: rest => f x index :: mapIndexed f rest (S index)
  end.

Section View.

Variable number : Type.

(** One [<article>] of the log: its [key], its [className], the text of
    [chat__meta] and the child of [chat__bubble]. *)
Record Article : Type := {
  key : jsstring;
  className : jsstring;
  meta : jsstring;
  bubble : JsVal number
}.

Definition article (message : Message number) (index : nat) : Article :=
  {| key := role message ++ js "-" ++ indexString index;
     className := js "chat__message chat__message--" ++ role message;
     meta := if jsstring_eqb (role message) (js "user") then js "나" else js "봇";
     bubble := content message |}.

(** The parts of the returned tree that depend on the state; the header,
    the label, the placeholder and the hint are fixed texts.
    [errorParagraph] is [{error && <p className="chat__error">{error}</p>}]. *)
Record View : Type := {
  articles : list Article;
  textareaValue : jsstring;
  textareaDisabled : bool;
  submitDisabled : bool;
  submitLabel : jsstring;
  errorParagraph : option jsstring
}.

Definition render (st : AppState number) : View :=
  {| articles := mapIndexed article (messages st) 0;
     textareaValue := input st;
     textareaDisabled := isLoading st;
     submitDisabled := falsy (trimmedInput st) || isLoading st;
     submitLabel := if isLoading st then js "전송 중..." else js "보내기";
     errorParagraph := if falsy (error st) then None else Some (error st) |}.

(** *** Counting the transcript *)

Definition isUser (m : Message number) : bool :=
  jsstring_eqb (role m) (js "user").

Definition isAssistant (m : Message number) : bool :=
  jsstring_eqb (role m) (js "assistant").

Definition countIf (p : Message number -> bool) (ms : list (Message number))
  : nat :=
  length (filter p ms).

(** Every assistant message of [rest] comes right after a user message,
    [previous] being the message before [rest]. *)
Fixpoint repliesFollowQuestions (previous : Message number)
    (rest : list (Message number)) : bool :=
  match rest with
  | [] => true
  | m :: rest' =>
    (negb (isAssistant m) || isUser previous) && repliesFollowQuestions m rest'
  end.

(** A request as [handleSubmit] sends it, seen from a later transcript: a
    POST of [{ messages }] to the endpoint, where [messages] starts with the
    greeting, ends with a user message that is not empty, and is the start
    of the transcript. *)
Definition sentFrom (v : variant) (transcript : list (Message number))
    (request : Request number) : Prop :=
  exists between text,
    request =
      chatRequest v
        (initialMessages number v ++ between
           ++ [ {| role := js "user"; content := JStr text |} ])
    /\ text <> []
    /\ prefix
         (initialMessages number v ++ between
            ++ [ {| role := js "user"; content := JStr text |} ])
         transcript.

Definition isString (x : JsVal number) : Prop := exists s, x = JStr s.

(** Some code unit of [s] is not white space. *)
Definition hasVisible (s : jsstring) : bool :=
  existsb (fun c => negb (isWhiteSpace c)) s.

End View.

Arguments js : simpl never.

(* ===================================================================== *)
(** ** [trim] removes the white space at both ends *)
(* ===================================================================== *)

Lemma trimStart_split (s : jsstring) :
  exists l, s = l ++ trimStart s /\ forallb isWhiteSpace l = true.
Proof.
  induction s as [|c s IH]; simpl.
  - exists []. split; reflexivity.
  - destruct (isWhiteSpace c) eqn:Hc.
    + destruct IH as [l [Hs Hl]]. exists (c :: l). simpl. rewrite Hc.
      split; [f_equal; exact Hs | exact Hl].
    + exists []. split; reflexivity.
Qed.

Lemma trimStart_startsClean (s : jsstring) : startsClean (trimStart s) = true.
Proof.
  induction s as [|c s IH]; simpl; [reflexivity|].
  destruct (isWhiteSpace c) eqn:Hc; [exact IH|].
  simpl. rewrite Hc. reflexivity.
Qed.

Lemma forallb_rev (f : N -> bool) (l : list N) :
  forallb f l = true -> forallb f (rev l) = true.
Proof.
  rewrite !forallb_forall. intros H x Hx. apply H, in_rev, Hx.
Qed.

Lemma trimEnd_split (s : jsstring) :
  exists r, s = trimEnd s ++ r /\ forallb isWhiteSpace r = true.
Proof.
  destruct (trimStart_split (rev s)) as [l [Hs Hl]].
  exists (rev l). split.
  - unfold trimEnd. rewrite <- rev_app_distr, <- Hs, rev_involutive. reflexivity.
  - apply forallb_rev, Hl.
Qed.

Lemma trim_split (s : jsstring) :
  exists l r, s = l ++ trim s ++ r
              /\ forallb isWhiteSpace l = true /\ forallb isWhiteSpace r = true.
Proof.
  destruct (trimStart_split s) as [l [Hs Hl]].
  destruct (trimEnd_split (trimStart s)) as [r [Ht Hr]].
  exists l, r. unfold trim. rewrite <- Ht. auto.
Qed.

Lemma trim_clean (s : jsstring) :
  startsClean (trim s) = true /\ endsClean (trim s) = true.
Proof.
  split.
  - destruct (trimEnd_split (trimStart s)) as [r [Ht _]].
    pose proof (trimStart_startsClean s) as Hc. fold (trim s) in Ht.
    rewrite Ht in Hc. destruct (trim s); [reflexivity | exact Hc].
  - unfold endsClean, trim, trimEnd. rewrite rev_involutive.
    apply trimStart_startsClean.
Qed.

Lemma trim_nil (s : jsstring) :
  trim s = [] <-> forallb isWhiteSpace s = true.
Proof.
  split.
  - intros Ht. destruct (trim_split s) as [l [r [Hs [Hl Hr]]]].
    rewrite Hs, Ht, !forallb_app, Hl, Hr. reflexivity.
  - intros Hs. unfold trim.
    assert (Hn : trimStart s = []).
    { clear -Hs. induction s as [|c s IH]; simpl in *; [reflexivity|].
      apply andb_true_iff in Hs. destruct Hs as [Hc Hs]. rewrite Hc. auto. }
    rewrite Hn. reflexivity.
Qed.

Lemma falsy_nil (s : jsstring) : falsy s = true <-> s = [].
Proof. destruct s; simpl; split; congruence. Qed.

Example js_ascii : js "ok" = [111; 107]%N.
Proof. reflexivity. Qed.

Example js_hangul : js "답변" = [45813; 48320]%N.
Proof. reflexivity. Qed.

Example js_astral : js "😀" = [55357; 56832]%N.
Proof. reflexivity. Qed.

Example trim_both_ends :
  trim ([9; 32; 12288]%N ++ js "hi there" ++ [32; 10; 8232]%N) = js "hi there".
Proof. reflexivity. Qed.

Example trim_blank : trim (js "   ") = [].
Proof. reflexivity. Qed.

(* ===================================================================== *)
(** ** Which values [ToString] converts *)
(* ===================================================================== *)

Section Conversion.

Variable number : Type.
Variable NumberToString : number -> jsstring.

Section Nested.

Variable P : JsVal number -> Prop.
Hypothesis leaf : forall v, (forall elems, v <> JArr elems) -> P v.
Hypothesis array : forall elems, Forall P elems -> P (JArr elems).

Lemma JsVal_array_ind : forall v : JsVal number, P v.
Proof.
  fix IH 1. intros v.
  destruct v as [| |b|n|s|elems|props];
    try (apply leaf; intros elems H; discriminate H).
  apply array.
  refine ((fix each (l : list (JsVal number)) : Forall P l :=
             match l with
             | [] => Forall_nil P
             | x :: rest => Forall_cons x (IH x) (each rest)
             end) elems).
Qed.

End Nested.

Lemma ToString_cons (x : JsVal number) (rest : list (JsVal number)) :
  ToString NumberToString (JArr (x :: rest)) =
  (first <- (if nullish x then Normal [] else ToString NumberToString x) ;;
   match rest with
   | [] => Normal first
   | _ :: _ =>
     others <- ToString NumberToString (JArr rest) ;;
     Normal (first ++ js "," ++ others)
   end).
Proof. reflexivity. Qed.

Lemma printable_cons (x : JsVal number) (rest : list (JsVal number)) :
  printable (JArr (x :: rest)) = printable x && printable (JArr rest).
Proof. reflexivity. Qed.

(** [ToString] converts the printable values and throws a TypeError on the
    others. *)
Lemma ToString_printable (v : JsVal number) :
  if printable v
  then exists s, ToString NumberToString v = Normal s
  else ToString NumberToString v = Throw TypeError.
Proof.
  induction v as [v Hleaf | elems IH] using JsVal_array_ind.
  - destruct v as [| |[|]| | | |props]; simpl; eauto.
    + exfalso. apply (Hleaf elems). reflexivity.
    + destruct (ownProperty (js "toString") props); eauto.
  - induction IH as [|x rest Hx _ IHrest]; [simpl; eauto|].
    rewrite printable_cons, ToString_cons.
    destruct (nullish x) eqn:Hn.
    + assert (Hp : printable x = true) by (destruct x; simpl in *; congruence).
      rewrite Hp. cbn [bind andb].
      destruct rest as [|y rest']; [simpl; eauto|].
      destruct (printable (JArr (y :: rest'))).
      * destruct IHrest as [s Hs]. rewrite Hs. cbn [bind]. eauto.
      * rewrite IHrest. reflexivity.
    + destruct (printable x).
      * destruct Hx as [s Hs]. rewrite Hs. cbn [bind andb].
        destruct rest as [|y rest']; [simpl; eauto|].
        destruct (printable (JArr (y :: rest'))).
        -- destruct IHrest as [s' Hs']. rewrite Hs'. cbn [bind]. eauto.
        -- rewrite IHrest. reflexivity.
      * rewrite Hx. reflexivity.
Qed.

End Conversion.

Example ToString_array :
  ToString printInteger
    (JArr [JNum 1%Z; JNull; JStr (js "a"); JArr [JBool true; JNum (-2)%Z];
           JObj [(js "k", JNull)]])
  = Normal (js "1,,a,true,-2,[object Object]").
Proof. reflexivity. Qed.

Example renderable_array :
  renderable (JArr [JStr (js "a"); JNum 1%Z; JNull; JArr [JBool true]]) = true.
Proof. reflexivity. Qed.

Example renderable_object_in_array :
  renderable (JArr [JStr (js "a"); JArr [@JObj Z []]]) = false.
Proof. reflexivity. Qed.

Example ToString_own_toString :
  ToString printInteger (JObj [(js "toString", JNull)]) = Throw TypeError.
Proof. reflexivity. Qed.

(* ===================================================================== *)
(** ** The controller *)
(* ===================================================================== *)

Section Properties.

Variable number : Type.
Variable NumberToString : number -> jsstring.

(** *** The guard of [handleSubmit] *)

Lemma handleSubmit_rejected (v : variant) (st : AppState number) :
  falsy (trimmedInput st) || isLoading st = true ->
  handleSubmit v st = (st, None).
Proof. intros H. unfold handleSubmit. rewrite H. reflexivity. Qed.

Lemma handleSubmit_accepted (v : variant) (st : AppState number) :
  trimmedInput st <> [] -> isLoading st = false ->
  handleSubmit v st =
  ({| messages := messages st ++ [userMessage st]; input := [];
      isLoading := true; error := [] |},
   Some (chatRequest v (messages st ++ [userMessage st]))).
Proof.
  intros Ht Hl. unfold handleSubmit. rewrite Hl, orb_false_r.
  destruct (falsy (trimmedInput st)) eqn:Hf; [|reflexivity].
  apply falsy_nil in Hf. contradiction.
Qed.

(** *** Runs *)

Lemma run_app (v : variant) (events1 events2 : list (Event number))
    (w : World number) :
  run NumberToString v w (events1 ++ events2) =
  match run NumberToString v w events1 with
  | Some (Mounted w') => run NumberToString v w' events2
  | Some (Unmounted err) => Some (Unmounted err)
  | None => None
  end.
Proof.
  revert w. induction events1 as [|e events1 IH]; intros w; simpl.
  - reflexivity.
  - destruct (step NumberToString v w e) as [[w1|err]|];
      [apply IH | reflexivity | reflexivity].
Qed.

Lemma run_invariant (v : variant) (P : World number -> Prop) :
  (forall w e w', P w -> step NumberToString v w e = Some (Mounted w') -> P w') ->
  forall events w w',
    P w -> run NumberToString v w events = Some (Mounted w') -> P w'.
Proof.
  intros Hstep. induction events as [|e events IH]; intros w w' Hw Hrun;
    simpl in Hrun.
  - congruence.
  - destruct (step NumberToString v w e) as [[w1|err]|] eqn:He;
      try discriminate.
    eapply IH; [eapply Hstep; eassumption | exact Hrun].
Qed.

(** *** The last piece of [handleSubmit] *)

Lemma handleSubmit_parsed_cases (v : variant)
    (settled : completion (JsVal number)) (st st' : AppState number) :
  handleSubmit_parsed NumberToString v settled st = Normal st' ->
  st' = catchFinally st
  \/ exists reply,
       renderable reply = true
       /\ drawable (messages st)
       /\ st' = {| messages := messages st ++ [assistantMessage reply];
                   input := input st; isLoading := false; error := error st |}.
Proof.
  unfold handleSubmit_parsed, setMessagesWith.
  destruct settled as [data|err]; [|intros H; inversion H; left; reflexivity].
  destruct (assistantContent NumberToString v data) as [reply|err];
    cbn [bind]; [|discriminate].
  unfold drawBubbles. cbn [messages]. rewrite forallb_app.
  destruct (forallb (fun message => renderable (content message)) (messages st))
    eqn:Hd; cbn [andb forallb content]; [|discriminate].
  rewrite andb_true_r.
  destruct (renderable reply) eqn:Hr; cbn [bind]; intros H; inversion H.
  right. exists reply. split; [exact Hr|]. split; [exact Hd|]. reflexivity.
Qed.

(** *** Single flight *)

Lemma step_singleFlight (v : variant) (w w' : World number) (e : Event number) :
  singleFlight w -> step NumberToString v w e = Some (Mounted w') ->
  singleFlight w'.
Proof.
  unfold singleFlight. intros Hw He. destruct e as [value| |settled|settled];
    cbn [step] in He.
  - inversion He; subst; exact Hw.
  - unfold handleSubmit in He.
    destruct (falsy (trimmedInput (app w)) || isLoading (app w)) eqn:Hg.
    + inversion He; subst; exact Hw.
    + apply orb_false_iff in Hg. destruct Hg as [_ Hl]. rewrite Hl in Hw.
      inversion He; subst; cbn. rewrite length_app, Hw. reflexivity.
  - destruct (tasks w) as [|[|] rest] eqn:Ht; try discriminate.
    destruct (isLoading (app w)) eqn:Hl; [|discriminate].
    destruct rest; [|discriminate].
    unfold handleSubmit_fetched in He.
    destruct (response <- settled ;; checkOk response);
      inversion He; subst; cbn; [rewrite Hl|]; reflexivity.
  - destruct (tasks w) as [|[|] rest] eqn:Ht; try discriminate.
    destruct (isLoading (app w)) eqn:Hl; [|discriminate].
    destruct rest; [|discriminate].
    destruct (handleSubmit_parsed NumberToString v settled (app w))
      as [st|err] eqn:Hp; inversion He; subst; cbn.
    destruct (handleSubmit_parsed_cases _ _ _ Hp) as [-> | [reply [_ [_ ->]]]];
      reflexivity.
Qed.

Lemma reachable_singleFlight (v : variant) (w : World number) :
  reachable NumberToString v w -> singleFlight w.
Proof.
  intros [events Hrun].
  eapply run_invariant; [intros ? ? ?; apply step_singleFlight | | exact Hrun].
  reflexivity.
Qed.

(** *** A whole request

    While a request is in flight, what the user does changes nothing but
    the input buffer. *)
Lemma userEvents_while_loading (v : variant) (during : list (Event number)) :
  forall w : World number,
  isLoading (app w) = true -> forallb (@userEvent number) during = true ->
  exists w', run NumberToString v w during = Some (Mounted w')
             /\ messages (app w') = messages (app w)
             /\ isLoading (app w') = true
             /\ error (app w') = error (app w)
             /\ tasks w' = tasks w
             /\ sent w' = sent w.
Proof.
  induction during as [|e during IH]; intros w Hl Hd.
  - exists w. simpl. repeat split; auto.
  - simpl in Hd. apply andb_true_iff in Hd. destruct Hd as [He Hd].
    destruct e as [value| |settled|settled]; try discriminate; cbn [run step].
    + destruct (IH {| app := setInput value (app w); tasks := tasks w;
                      sent := sent w |} Hl Hd) as [w' Hw'].
      exists w'. exact Hw'.
    + rewrite handleSubmit_rejected by (rewrite Hl; apply orb_true_r).
      destruct (IH {| app := app w; tasks := tasks w; sent := sent w |} Hl Hd)
        as [w' Hw'].
      exists w'. exact Hw'.
Qed.

(** From an idle state with something to send, to the end of the request:
    after a failure the transcript has the user message and the error is
    set; after a reply it has the user message and the assistant message;
    and when the reply cannot be built the component is removed. *)
Lemma cycle_run (v : variant) (w : World number) (o : Outcome number)
    (during1 during2 : list (Event number)) :
  tasks w = [] -> isLoading (app w) = false -> trimmedInput (app w) <> [] ->
  drawable (messages (app w)) ->
  forallb (@userEvent number) during1 = true ->
  forallb (@userEvent number) during2 = true ->
  match ending NumberToString v o with
  | Failed =>
    exists w',
      run NumberToString v w (Submit :: settling o during1 during2)
      = Some (Mounted w')
      /\ messages (app w') = messages (app w) ++ [userMessage (app w)]
      /\ isLoading (app w') = false
      /\ error (app w') = sendFailure
  | Replied reply =>
    exists w',
      run NumberToString v w (Submit :: settling o during1 during2)
      = Some (Mounted w')
      /\ messages (app w') =
         messages (app w) ++ [userMessage (app w); assistantMessage reply]
      /\ isLoading (app w') = false
      /\ error (app w') = []
  | Crashed err =>
    run NumberToString v w (Submit :: settling o during1 during2)
    = Some (Unmounted err)
  end.
Proof.
  intros Ht Hl Hin Hdraw Hd1 Hd2.
  cbn [run step]. rewrite (handleSubmit_accepted v (app w) Hin Hl), Ht.
  cbn [List.app].
  match goal with |- context [run _ _ ?w1 _] => set (w1' := w1) end.
  destruct (@userEvents_while_loading v during1 w1' eq_refl Hd1)
    as [w2 [Hrun2 [Hm2 [Hl2 [He2 [Ht2 Hs2]]]]]].
  cbn in Hm2, He2, Ht2, Hs2.
  assert (Hfail : exists w',
             Some (Mounted {| app := catchFinally (app w2); tasks := [];
                              sent := sent w2 |}) = Some (Mounted w')
             /\ messages (app w') = messages (app w) ++ [userMessage (app w)]
             /\ isLoading (app w') = false
             /\ error (app w') = sendFailure).
  { eexists. split; [reflexivity|]. cbn. rewrite Hm2. repeat split. }
  unfold ending.
  destruct o as [e | response parsed]; unfold settling, parsedBody;
    rewrite run_app, Hrun2; cbn [run step]; rewrite Ht2;
    unfold handleSubmit_fetched, checkOk; cbn [bind]; [exact Hfail|].
  destruct (ok response); cbn [negb bind]; [|exact Hfail].
  set (w3 := {| app := app w2; tasks := [AwaitingJson]; sent := sent w2 |}).
  destruct (@userEvents_while_loading v during2 w3 Hl2 Hd2)
    as [w4 [Hrun4 [Hm4 [Hl4 [He4 [Ht4 Hs4]]]]]].
  cbn in Hm4, He4, Ht4, Hs4.
  rewrite run_app, Hrun4. cbn [run step]. rewrite Ht4.
  unfold handleSubmit_parsed, setMessagesWith.
  destruct parsed as [data|err].
  - destruct (assistantContent NumberToString v data) as [reply|err];
      cbn [bind]; [|reflexivity].
    unfold drawBubbles. cbn [messages].
    rewrite Hm4, Hm2, !forallb_app, Hdraw.
    cbn [forallb content userMessage renderable andb].
    rewrite andb_true_r.
    destruct (renderable reply); cbn [bind]; [|reflexivity].
    eexists. split; [reflexivity|]. cbn.
    rewrite He4, He2, <- app_assoc. repeat split.
  - eexists. split; [reflexivity|]. cbn. rewrite Hm4, Hm2. repeat split.
Qed.

Lemma reachable_idle (v : variant) (w : World number) :
  reachable NumberToString v w -> isLoading (app w) = false -> tasks w = [].
Proof.
  intros Hr Hl. apply reachable_singleFlight in Hr. unfold singleFlight in Hr.
  rewrite Hl in Hr. destruct (tasks w); [reflexivity | discriminate].
Qed.

Lemma reachable_run (v : variant) (w w' : World number)
    (events : list (Event number)) :
  reachable NumberToString v w ->
  run NumberToString v w events = Some (Mounted w') ->
  reachable NumberToString v w'.
Proof.
  intros [before Hw] Hrun. exists (before ++ events).
  rewrite run_app, Hw. exact Hrun.
Qed.

Lemma sendFailure_not_empty : sendFailure <> [].
Proof. intros H. vm_compute in H. discriminate H. Qed.

(** *** What one step does to the transcript *)

Lemma step_transcript (v : variant) (w w' : World number) (e : Event number) :
  step NumberToString v w e = Some (Mounted w') ->
  messages (app w') = messages (app w)
  \/ (messages (app w') = messages (app w) ++ [userMessage (app w)]
      /\ trimmedInput (app w) <> [])
  \/ (exists reply,
        messages (app w') = messages (app w) ++ [assistantMessage reply]
        /\ renderable reply = true).
Proof.
  intros He. destruct e as [value| |settled|settled]; cbn [step] in He.
  - inversion He; subst. left. reflexivity.
  - unfold handleSubmit in He.
    destruct (falsy (trimmedInput (app w))) eqn:Hf; cbn [orb] in He.
    + inversion He; subst. left. reflexivity.
    + destruct (isLoading (app w)); inversion He; subst;
        [left; reflexivity | right; left].
      split; [reflexivity|]. intros Hn. rewrite Hn in Hf. discriminate.
  - destruct (tasks w) as [|[|] rest]; try discriminate.
    unfold handleSubmit_fetched in He.
    destruct (response <- settled ;; checkOk response);
      inversion He; subst; left; reflexivity.
  - destruct (tasks w) as [|[|] rest]; try discriminate.
    destruct (handleSubmit_parsed NumberToString v settled (app w))
      as [st|err] eqn:Hp; inversion He; subst; cbn [app].
    destruct (handleSubmit_parsed_cases _ _ _ Hp)
      as [-> | [reply [Hr [_ ->]]]].
    + left. reflexivity.
    + right; right. exists reply. split; [reflexivity | exact Hr].
Qed.

(** *** Every transcript that is reached can be drawn *)

Lemma reachable_drawable (v : variant) (w : World number) :
  reachable NumberToString v w -> drawable (messages (app w)).
Proof.
  intros [events Hrun].
  eapply run_invariant with (P := fun x => drawable (messages (app x)));
    [ | | exact Hrun].
  - unfold drawable. intros w1 e w2 Hw He.
    destruct (step_transcript v w1 e He) as [H | [[H _] | [reply [H Hr]]]];
      rewrite H; [exact Hw | |]; rewrite forallb_app, Hw;
      cbn [forallb content userMessage assistantMessage renderable andb];
      [reflexivity | rewrite Hr; reflexivity].
  - reflexivity.
Qed.

(** *** Requests that succeed *)

Lemma cycle_success (v : variant) (w : World number) (o : Outcome number)
    (data reply : JsVal number) (during1 during2 : list (Event number)) :
  reachable NumberToString v w ->
  isLoading (app w) = false -> trimmedInput (app w) <> [] ->
  parsedBody o = Normal data ->
  assistantContent NumberToString v data = Normal reply ->
  renderable reply = true ->
  forallb (@userEvent number) during1 = true ->
  forallb (@userEvent number) during2 = true ->
  exists w',
    run NumberToString v w (Submit :: settling o during1 during2)
    = Some (Mounted w')
    /\ messages (app w') =
       messages (app w) ++ [userMessage (app w); assistantMessage reply]
    /\ isLoading (app w') = false
    /\ error (app w') = [].
Proof.
  intros Hr Hl Hin Ho Hc Hdraw Hd1 Hd2.
  pose proof (@cycle_run v w o during1 during2 (@reachable_idle v w Hr Hl)
                Hl Hin (@reachable_drawable v w Hr) Hd1 Hd2) as H.
  assert (Hend : ending NumberToString v o = Replied reply)
    by (unfold ending; rewrite Ho, Hc, Hdraw; reflexivity).
  rewrite Hend in H. exact H.
Qed.

Lemma coalesce_printable (a b : JsVal number) :
  printable a = true -> printable b = true -> printable (coalesce a b) = true.
Proof. intros Ha Hb. unfold coalesce. destruct (nullish a); assumption. Qed.

Lemma convertible_reply (v : variant) (data : JsVal number) :
  convertible v data = true ->
  exists reply,
    assistantContent NumberToString v data = Normal reply
    /\ renderable reply = true.
Proof.
  destruct v; intros Hc.
  - eexists. split; [reflexivity | exact Hc].
  - unfold assistantContent, concat.
    pose proof (ToString_printable NumberToString
                  (coalesce (optGet data (js "content")) (JStr fallbackReply)))
      as Hp.
    rewrite coalesce_printable in Hp; [|exact Hc|reflexivity].
    destruct Hp as [s Hs]. rewrite Hs. eexists. split; reflexivity.
Qed.

Lemma isFalse_iff (x : JsVal number) : isFalse x = true <-> x = JBool false.
Proof.
  split; [|intros ->; reflexivity].
  destruct x as [| |[|]| | | |]; simpl; congruence.
Qed.

Lemma filterNotice_not_empty : filterNotice <> [].
Proof. intros H. vm_compute in H. discriminate H. Qed.

Lemma roles_differ : js "assistant" <> js "user".
Proof. intros H. vm_compute in H. discriminate H. Qed.

(** *** Invariants of the transcript *)

Lemma run_prefix (v : variant) (events : list (Event number))
    (w w' : World number) :
  run NumberToString v w events = Some (Mounted w') ->
  prefix (messages (app w)) (messages (app w')).
Proof.
  intros Hrun.
  eapply run_invariant with (P := fun x => prefix (messages (app w))
                                                  (messages (app x)));
    [ | | exact Hrun].
  - intros w1 e w2 [more Hm] He.
    destruct (step_transcript v w1 e He) as [H | [[H _] | [reply [H _]]]];
      rewrite H, Hm.
    + exists more. reflexivity.
    + exists (more ++ [userMessage (app w1)]). apply eq_sym, app_assoc.
    + exists (more ++ [assistantMessage reply]). apply eq_sym, app_assoc.
  - exists []. apply eq_sym, app_nil_r.
Qed.

Lemma reachable_knownRole (v : variant) (w : World number) :
  reachable NumberToString v w -> Forall (@knownRole number) (messages (app w)).
Proof.
  intros [events Hrun].
  eapply run_invariant with (P := fun x => Forall (@knownRole number)
                                                  (messages (app x)));
    [ | | exact Hrun].
  - intros w1 e w2 Hw He.
    destruct (step_transcript v w1 e He) as [H | [[H _] | [reply [H _]]]];
      rewrite H; [exact Hw | |];
      apply Forall_app; (split; [exact Hw|]);
      (apply Forall_cons; [|apply Forall_nil]).
    + left. reflexivity.
    + right. reflexivity.
  - apply Forall_cons; [right; reflexivity | apply Forall_nil].
Qed.

Lemma reachable_trimmed (v : variant) (w : World number) :
  reachable NumberToString v w ->
  Forall (@trimmedUserMessage number) (messages (app w)).
Proof.
  intros [events Hrun].
  eapply run_invariant with (P := fun x => Forall (@trimmedUserMessage number)
                                                  (messages (app x)));
    [ | | exact Hrun].
  - intros w1 e w2 Hw He.
    destruct (step_transcript v w1 e He) as [H | [[H Hin] | [reply [H _]]]];
      rewrite H; [exact Hw | |];
      apply Forall_app; (split; [exact Hw|]);
      (apply Forall_cons; [|apply Forall_nil]).
    + intros _. exists (trimmedInput (app w1)).
      split; [reflexivity|]. split; [exact Hin|]. apply trim_clean.
    + intros Hrole. exfalso. exact (roles_differ Hrole).
  - apply Forall_cons; [|apply Forall_nil].
    intros Hrole. exfalso. exact (roles_differ Hrole).
Qed.

(** *** The reply of each front end *)

Lemma filter_string_content (props : list (jsstring * JsVal number))
    (c : jsstring) :
  ownProperty (js "content") props = Some (JStr c) ->
  assistantContent NumberToString Filter (JObj props) =
  Normal (JStr (if isFalse (optGet (JObj props) (js "is_safe"))
                then c ++ filterNotice else c)).
Proof.
  intros Hc. unfold assistantContent.
  replace (optGet (JObj props) (js "content")) with (@JStr number c)
    by (unfold optGet; rewrite Hc; reflexivity).
  unfold coalesce, concat. cbn [nullish ToString bind].
  destruct (isFalse (optGet (JObj props) (js "is_safe")));
    [reflexivity | rewrite app_nil_r; reflexivity].
Qed.

Lemma noReply_content (v : variant) (data : JsVal number) :
  noReply v data = true ->
  assistantContent NumberToString v data =
  Normal (JStr match v with
               | Chat => fallbackReply
               | Filter =>
                 if isFalse (optGet data (js "is_safe"))
                 then fallbackReply ++ filterNotice else fallbackReply
               end).
Proof.
  destruct v; unfold noReply, assistantContent; intros Hn.
  - apply andb_true_iff in Hn. destruct Hn as [Hr Hm].
    unfold coalesce. rewrite Hr, Hm. reflexivity.
  - unfold coalesce. rewrite Hn. unfold concat. cbn [ToString bind].
    destruct (isFalse (optGet data (js "is_safe")));
      [reflexivity | rewrite app_nil_r; reflexivity].
Qed.

(* ===================================================================== *)
(** ** The claims *)
(* ===================================================================== *)

(** C6 — Submitting while the trimmed input is empty (the input is empty
    or only white space) does nothing: [handleSubmit] returns the state it
    was given and starts no request, so the transcript, the status, the
    error, the input buffer, the suspended tasks and the requests sent are
    all what they were. *)
Theorem blank_submit_is_ignored (v : variant) (w : World number) :
  trimmedInput (app w) = [] ->
  forallb isWhiteSpace (input (app w)) = true
  /\ handleSubmit v (app w) = (app w, None)
  /\ step NumberToString v w Submit = Some (Mounted w).
Proof.
  intros Ht.
  assert (Hh : handleSubmit v (app w) = (app w, None)).
  { apply handleSubmit_rejected. rewrite Ht. reflexivity. }
  split; [apply trim_nil; exact Ht|]. split; [exact Hh|].
  cbn [step]. rewrite Hh. destruct w; reflexivity.
Qed.

(** C7 — An accepted submission (trimmed input not empty, status idle),
    before anything settles: the transcript has the user message appended,
    the input buffer and the error are empty, the status is
    awaiting-response, one invocation is suspended at [fetch], and one
    request was sent: a POST to the endpoint with a JSON content type
    whose body is [{ messages }] over the whole new transcript. *)
Theorem accepted_submit_sends_transcript (v : variant) (w : World number) :
  reachable NumberToString v w ->
  isLoading (app w) = false -> trimmedInput (app w) <> [] ->
  exists w',
    step NumberToString v w Submit = Some (Mounted w')
    /\ messages (app w') = messages (app w) ++ [userMessage (app w)]
    /\ input (app w') = []
    /\ error (app w') = []
    /\ isLoading (app w') = true
    /\ tasks w' = [AwaitingFetch]
    /\ sent w' =
       sent w ++
       [ {| url := endpoint v;
            method := js "POST";
            headers := [ (js "Content-Type", js "application/json") ];
            body := JObj [ (js "messages",
                            JArr (map (@messageValue number)
                                      (messages (app w')))) ] |} ].
Proof.
  intros Hr Hl Hin. cbn [step].
  rewrite (handleSubmit_accepted v (app w) Hin Hl).
  rewrite (@reachable_idle v w Hr Hl).
  eexists. split; [reflexivity|]. cbn. repeat split; reflexivity.
Qed.

(** C2 — Single flight.  In every reachable state at most one invocation
    of [handleSubmit] is suspended on a request, and the status is
    awaiting-response exactly while one is.  In such a state a submission
    is ignored: the state is returned as it was and nothing is sent; and
    whatever the user does (submissions, changes of the input), the
    transcript, the status, the error, the suspended task and the requests
    sent stay what they are until the request settles. *)
Theorem submit_while_loading_is_ignored (v : variant) (w : World number) :
  reachable NumberToString v w ->
  length (tasks w) <= 1
  /\ (isLoading (app w) = true <-> tasks w <> [])
  /\ (isLoading (app w) = true ->
      handleSubmit v (app w) = (app w, None)
      /\ step NumberToString v w Submit = Some (Mounted w)
      /\ forall during, forallb (@userEvent number) during = true ->
         exists w', run NumberToString v w during = Some (Mounted w')
                    /\ messages (app w') = messages (app w)
                    /\ isLoading (app w') = true
                    /\ error (app w') = error (app w)
                    /\ tasks w' = tasks w
                    /\ sent w' = sent w).
Proof.
  intros Hr. pose proof (@reachable_singleFlight v w Hr) as Hs.
  unfold singleFlight in Hs. split; [|split].
  - destruct (isLoading (app w)); lia.
  - destruct (isLoading (app w)), (tasks w); simpl in Hs; split;
      congruence.
  - intros Hl.
    assert (Hh : handleSubmit v (app w) = (app w, None)).
    { apply handleSubmit_rejected. rewrite Hl. apply orb_true_r. }
    split; [exact Hh|]. split.
    + cbn [step]. rewrite Hh. destruct w; reflexivity.
    + intros during Hd. apply userEvents_while_loading; assumption.
Qed.

(** C1 — An accepted submission whose request fails ([fetch] rejects, the
    response is not 2xx, or reading the body as JSON fails): once it has
    settled, the transcript is the one before the submission with the user
    message appended and nothing else, the status is idle again, and the
    error is the fixed message, which is not empty. *)
Theorem failed_request_sets_error (v : variant) (w : World number)
    (o : Outcome number) (e : JsError)
    (during1 during2 : list (Event number)) :
  reachable NumberToString v w ->
  isLoading (app w) = false -> trimmedInput (app w) <> [] ->
  parsedBody o = Throw e ->
  forallb (@userEvent number) during1 = true ->
  forallb (@userEvent number) during2 = true ->
  exists w',
    run NumberToString v w (Submit :: settling o during1 during2)
    = Some (Mounted w')
    /\ messages (app w') = messages (app w) ++ [userMessage (app w)]
    /\ isLoading (app w') = false
    /\ error (app w') = sendFailure
    /\ sendFailure <> [].
Proof.
  intros Hr Hl Hin Ho Hd1 Hd2.
  pose proof (@cycle_run v w o during1 during2 (@reachable_idle v w Hr Hl)
                Hl Hin (@reachable_drawable v w Hr) Hd1 Hd2) as H.
  assert (Hend : ending NumberToString v o = Failed)
    by (unfold ending; rewrite Ho; reflexivity).
  rewrite Hend in H. destruct H as [w' [Hrun [Hm [Hl' He]]]].
  exists w'. split; [exact Hrun|]. split; [exact Hm|]. split; [exact Hl'|].
  split; [exact He | exact sendFailure_not_empty].
Qed.

(** C3 (amended) — An accepted submission whose request succeeds (a 2xx
    response whose body parses) and whose reply can be put in a message and
    drawn: for Chat a reply ([reply], else [message], else the fallback
    text) that is not an object nor an array holding one; for Filter a body
    whose [content] is not an object with an own property [toString] nor
    an array holding one.  Once it has settled, the transcript is the one
    before the submission with two messages appended, the user message and
    then one assistant message, and the status is idle again. *)
Theorem successful_request_appends_reply (v : variant) (w : World number)
    (o : Outcome number) (data : JsVal number)
    (during1 during2 : list (Event number)) :
  reachable NumberToString v w ->
  isLoading (app w) = false -> trimmedInput (app w) <> [] ->
  parsedBody o = Normal data ->
  convertible v data = true ->
  forallb (@userEvent number) during1 = true ->
  forallb (@userEvent number) during2 = true ->
  exists w' reply,
    run NumberToString v w (Submit :: settling o during1 during2)
    = Some (Mounted w')
    /\ messages (app w') =
       messages (app w) ++ [userMessage (app w); assistantMessage reply]
    /\ isLoading (app w') = false.
Proof.
  intros Hr Hl Hin Ho Hc Hd1 Hd2.
  destruct (convertible_reply v data Hc) as [reply [Hreply Hdraw]].
  destruct (@cycle_success v w o data reply during1 during2
              Hr Hl Hin Ho Hreply Hdraw Hd1 Hd2) as [w' [Hrun [Hm [Hl' _]]]].
  exists w', reply. split; [exact Hrun|]. split; assumption.
Qed.

(** C4 — Filter: when the body of a successful response is an object
    whose [content] is a string, the assistant message appended is that
    string, followed by the filtering notice if and only if [is_safe] is
    the boolean [false]; with [is_safe] missing, [true] or anything else
    it is the string itself. *)
Theorem filter_notice_iff_unsafe (w : World number) (o : Outcome number)
    (props : list (jsstring * JsVal number)) (c : jsstring)
    (during1 during2 : list (Event number)) :
  reachable NumberToString Filter w ->
  isLoading (app w) = false -> trimmedInput (app w) <> [] ->
  parsedBody o = Normal (JObj props) ->
  ownProperty (js "content") props = Some (JStr c) ->
  forallb (@userEvent number) during1 = true ->
  forallb (@userEvent number) during2 = true ->
  exists w' reply,
    run NumberToString Filter w (Submit :: settling o during1 during2)
    = Some (Mounted w')
    /\ messages (app w') =
       messages (app w) ++ [userMessage (app w); assistantMessage (JStr reply)]
    /\ (optGet (JObj props) (js "is_safe") = JBool false ->
        reply = c ++ filterNotice)
    /\ (optGet (JObj props) (js "is_safe") <> JBool false -> reply = c)
    /\ (reply = c ++ filterNotice <->
        optGet (JObj props) (js "is_safe") = JBool false).
Proof.
  intros Hr Hl Hin Ho Hc Hd1 Hd2.
  pose proof (filter_string_content props Hc) as Hreply.
  destruct (@cycle_success Filter w o (JObj props) _ during1 during2
              Hr Hl Hin Ho Hreply eq_refl Hd1 Hd2) as [w' [Hrun [Hm _]]].
  eexists w', _. split; [exact Hrun|]. split; [exact Hm|].
  destruct (isFalse (optGet (JObj props) (js "is_safe"))) eqn:Hs.
  - apply isFalse_iff in Hs. repeat split; auto. intros Hne. contradiction.
  - assert (Hne : optGet (JObj props) (js "is_safe") <> JBool false).
    { intros Heq. apply isFalse_iff in Heq. congruence. }
    repeat split; auto; try contradiction.
    intros Heq. exfalso. apply filterNotice_not_empty.
    apply (app_inv_head c). rewrite app_nil_r. symmetry. exact Heq.
Qed.

(** C5 (amended) — Chat: after a successful response whose reply can be
    drawn (it is not an object nor an array holding one; a string always
    can), the assistant message appended holds the [reply] field of the
    body when that is there and not nullish, whatever [message] is;
    otherwise it holds the [message] field when that is there and not
    nullish.  Nothing is added to it. *)
Theorem chat_reply_first_match (w : World number) (o : Outcome number)
    (data : JsVal number) (during1 during2 : list (Event number)) :
  reachable NumberToString Chat w ->
  isLoading (app w) = false -> trimmedInput (app w) <> [] ->
  parsedBody o = Normal data ->
  convertible Chat data = true ->
  forallb (@userEvent number) during1 = true ->
  forallb (@userEvent number) during2 = true ->
  exists w' reply,
    run NumberToString Chat w (Submit :: settling o during1 during2)
    = Some (Mounted w')
    /\ messages (app w') =
       messages (app w) ++ [userMessage (app w); assistantMessage reply]
    /\ (nullish (optGet data (js "reply")) = false ->
        reply = optGet data (js "reply"))
    /\ (nullish (optGet data (js "reply")) = true ->
        nullish (optGet data (js "message")) = false ->
        reply = optGet data (js "message")).
Proof.
  intros Hr Hl Hin Ho Hconv Hd1 Hd2.
  destruct (@cycle_success Chat w o data _ during1 during2
              Hr Hl Hin Ho eq_refl Hconv Hd1 Hd2) as [w' [Hrun [Hm _]]].
  eexists w', _. split; [exact Hrun|]. split; [exact Hm|].
  unfold coalesce. split.
  - intros Hn. rewrite Hn. cbn [nullish]. rewrite Hn. reflexivity.
  - intros Hn Hn'. rewrite Hn, Hn'. reflexivity.
Qed.

(** C8 — The transcript only grows at its end.  It starts as the single
    assistant greeting; whatever happens from a reachable state, the
    transcript before is the start of the transcript after, so nothing in
    it is changed or removed; and every message has role "user" or
    "assistant". *)
Theorem transcript_append_only (v : variant) (w w' : World number)
    (events : list (Event number)) :
  reachable NumberToString v w ->
  run NumberToString v w events = Some (Mounted w') ->
  messages (app (init number v)) = [assistantMessage (JStr (greeting v))]
  /\ prefix (messages (app w)) (messages (app w'))
  /\ Forall (@knownRole number) (messages (app w))
  /\ Forall (@knownRole number) (messages (app w')).
Proof.
  intros Hr Hrun. split; [reflexivity|]. split; [|split].
  - exact (run_prefix v events w Hrun).
  - exact (reachable_knownRole Hr).
  - exact (reachable_knownRole (reachable_run events Hr Hrun)).
Qed.

(** C9 (amended) — A successful response whose body names no reply
    ([reply] and [message] both nullish for Chat, [content] nullish for
    Filter) does not take the error path: an assistant message is
    appended, the status is idle again and the error stays empty.  The
    message is the fallback text; Filter adds the filtering notice to it
    when [is_safe] is the boolean [false]. *)
Theorem missing_reply_falls_back (v : variant) (w : World number)
    (o : Outcome number) (data : JsVal number)
    (during1 during2 : list (Event number)) :
  reachable NumberToString v w ->
  isLoading (app w) = false -> trimmedInput (app w) <> [] ->
  parsedBody o = Normal data ->
  noReply v data = true ->
  forallb (@userEvent number) during1 = true ->
  forallb (@userEvent number) during2 = true ->
  exists w',
    run NumberToString v w (Submit :: settling o during1 during2)
    = Some (Mounted w')
    /\ messages (app w') =
       messages (app w) ++
       [ userMessage (app w);
         assistantMessage
           (JStr match v with
                 | Chat => fallbackReply
                 | Filter =>
                   if isFalse (optGet data (js "is_safe"))
                   then fallbackReply ++ filterNotice else fallbackReply
                 end) ]
    /\ isLoading (app w') = false
    /\ error (app w') = [].
Proof.
  intros Hr Hl Hin Ho Hn Hd1 Hd2.
  exact (@cycle_success v w o data _ during1 during2
           Hr Hl Hin Ho (noReply_content v data Hn) eq_refl Hd1 Hd2).
Qed.


End Properties.

(* ===================================================================== *)
(** ** The claims on concrete runs *)
(* ===================================================================== *)

(** One exchange with the chat front end, from the fresh page. *)
Example chat_exchange :
  run printInteger Chat (init Z Chat)
    [ Change (js " hi "); Submit;
      FetchSettled (Normal {| status := 200 |});
      JsonSettled (Normal (JObj [(js "reply", JStr (js "hello"))])) ]
  = Some (Mounted
      {| app := {| messages :=
                     [ assistantMessage (JStr (greeting Chat));
                       {| role := js "user"; content := JStr (js "hi") |};
                       assistantMessage (JStr (js "hello")) ];
                   input := []; isLoading := false; error := [] |};
         tasks := [];
         sent := [ chatRequest Chat
                     [ assistantMessage (JStr (greeting Chat));
                       {| role := js "user"; content := JStr (js "hi") |} ] ] |}).
Proof. reflexivity. Qed.

(** The same exchange when the server answers 404. *)
Example chat_not_found :
  run printInteger Chat (init Z Chat)
    [ Change (js " hi "); Submit; FetchSettled (Normal {| status := 404 |}) ]
  = Some (Mounted
      {| app := {| messages :=
                     [ assistantMessage (JStr (greeting Chat));
                       {| role := js "user"; content := JStr (js "hi") |} ];
                   input := []; isLoading := false; error := sendFailure |};
         tasks := [];
         sent := [ chatRequest Chat
                     [ assistantMessage (JStr (greeting Chat));
                       {| role := js "user"; content := JStr (js "hi") |} ] ] |}).
Proof. reflexivity. Qed.

(** A 500 response; the user presses submit again while waiting. *)
Lemma failed_request_sets_error_witness :
  exists w',
    run printInteger Chat (typed Chat (js " hi "))
      (Submit :: settling (Answered {| status := 500 |} (Normal JNull))
                            [Submit] [])
    = Some (Mounted w')
    /\ messages (app w') =
       messages (app (typed Chat (js " hi ")))
       ++ [userMessage (app (typed Chat (js " hi ")))]
    /\ isLoading (app w') = false
    /\ error (app w') = sendFailure
    /\ sendFailure <> [].
Proof.
  apply (@failed_request_sets_error Z printInteger Chat
           (typed Chat (js " hi "))
           (Answered {| status := 500 |} (Normal JNull))
           (Error httpErrorMessage) [Submit] []).
  - exists [Change (js " hi ")]. reflexivity.
  - reflexivity.
  - intros H. vm_compute in H. discriminate H.
  - reflexivity.
  - reflexivity.
  - reflexivity.
Defined.

(** The page while the request for "hi" is in flight. *)
Lemma submit_while_loading_is_ignored_witness :
  step printInteger Filter
    (afterEvents Filter [Change (js "hi"); Submit]) Submit
  = Some (Mounted (afterEvents Filter [Change (js "hi"); Submit]))
  /\ length (tasks (afterEvents Filter [Change (js "hi"); Submit])) <= 1.
Proof.
  destruct (@submit_while_loading_is_ignored Z printInteger Filter
              (afterEvents Filter [Change (js "hi"); Submit]))
    as [Hone [_ Hloading]].
  - exists [Change (js "hi"); Submit]. reflexivity.
  - split; [|exact Hone].
    destruct (Hloading eq_refl) as [_ [Hstep _]]. exact Hstep.
Defined.

Lemma successful_request_appends_reply_witness :
  exists w' reply,
    run printInteger Filter (typed Filter (js "hi"))
      (Submit :: settling (answers (JObj [(js "content", JNum 42%Z)])) [] [])
    = Some (Mounted w')
    /\ messages (app w') =
       messages (app (typed Filter (js "hi")))
       ++ [userMessage (app (typed Filter (js "hi"))); assistantMessage reply]
    /\ isLoading (app w') = false.
Proof.
  apply (@successful_request_appends_reply Z printInteger Filter
           (typed Filter (js "hi"))
           (answers (JObj [(js "content", JNum 42%Z)]))
           (JObj [(js "content", JNum 42%Z)]) [] []).
  - exists [Change (js "hi")]. reflexivity.
  - reflexivity.
  - intros H. vm_compute in H. discriminate H.
  - reflexivity.
  - reflexivity.
  - reflexivity.
  - reflexivity.
Defined.

(** The response [{ "content": "ok", "is_safe": false }]. *)
Lemma filter_notice_iff_unsafe_witness :
  exists w',
    run printInteger Filter (typed Filter (js "hi"))
      (Submit ::
       settling (answers (JObj [(js "content", JStr (js "ok"));
                                (js "is_safe", JBool false)])) [] [])
    = Some (Mounted w')
    /\ messages (app w') =
       messages (app (typed Filter (js "hi")))
       ++ [userMessage (app (typed Filter (js "hi")));
           assistantMessage (JStr (js "ok" ++ filterNotice))].
Proof.
  destruct (@filter_notice_iff_unsafe Z printInteger
              (typed Filter (js "hi"))
              (answers (JObj [(js "content", JStr (js "ok"));
                              (js "is_safe", JBool false)]))
              [(js "content", JStr (js "ok")); (js "is_safe", JBool false)]
              (js "ok") [] [])
    as [w' [reply [Hrun [Hm [Hunsafe _]]]]].
  - exists [Change (js "hi")]. reflexivity.
  - reflexivity.
  - intros H. vm_compute in H. discriminate H.
  - reflexivity.
  - reflexivity.
  - reflexivity.
  - reflexivity.
  - exists w'. split; [exact Hrun|].
    rewrite <- (Hunsafe eq_refl). exact Hm.
Defined.

(** The response [{ "reply": "hi" }]. *)
Lemma chat_reply_first_match_witness :
  exists w',
    run printInteger Chat (typed Chat (js "hello"))
      (Submit :: settling (answers (JObj [(js "reply", JStr (js "hi"))])) [] [])
    = Some (Mounted w')
    /\ messages (app w') =
       messages (app (typed Chat (js "hello")))
       ++ [userMessage (app (typed Chat (js "hello")));
           assistantMessage (JStr (js "hi"))].
Proof.
  destruct (@chat_reply_first_match Z printInteger
              (typed Chat (js "hello"))
              (answers (JObj [(js "reply", JStr (js "hi"))]))
              (JObj [(js "reply", JStr (js "hi"))]) [] [])
    as [w' [reply [Hrun [Hm [Hreply _]]]]].
  - exists [Change (js "hello")]. reflexivity.
  - reflexivity.
  - intros H. vm_compute in H. discriminate H.
  - reflexivity.
  - reflexivity.
  - reflexivity.
  - reflexivity.
  - exists w'. split; [exact Hrun|].
    rewrite (Hreply eq_refl) in Hm. exact Hm.
Defined.

(** Three spaces in the input buffer. *)
Lemma blank_submit_is_ignored_witness :
  forallb isWhiteSpace (input (app (typed Chat (js "   ")))) = true
  /\ handleSubmit Chat (app (typed Chat (js "   ")))
     = (app (typed Chat (js "   ")), None)
  /\ step printInteger Chat (typed Chat (js "   ")) Submit
     = Some (Mounted (typed Chat (js "   "))).
Proof.
  apply (@blank_submit_is_ignored Z printInteger Chat (typed Chat (js "   "))).
  reflexivity.
Defined.

Lemma accepted_submit_sends_transcript_witness :
  exists w',
    step printInteger Filter (typed Filter (js " hi ")) Submit = Some (Mounted w')
    /\ messages (app w') =
       [ assistantMessage (JStr (greeting Filter));
         {| role := js "user"; content := JStr (js "hi") |} ]
    /\ isLoading (app w') = true
    /\ map (@body Z) (sent w') =
       [ JObj [ (js "messages",
                 JArr [ JObj [ (js "role", JStr (js "assistant"));
                               (js "content", JStr (greeting Filter)) ];
                        JObj [ (js "role", JStr (js "user"));
                               (js "content", JStr (js "hi")) ] ]) ] ].
Proof.
  destruct (@accepted_submit_sends_transcript Z printInteger Filter
              (typed Filter (js " hi ")))
    as [w' [Hstep [Hm [_ [_ [Hl [_ Hsent]]]]]]].
  - exists [Change (js " hi ")]. reflexivity.
  - reflexivity.
  - intros H. vm_compute in H. discriminate H.
  - exists w'. split; [exact Hstep|]. split; [exact Hm|]. split; [exact Hl|].
    rewrite Hsent, Hm. reflexivity.
Defined.

Lemma transcript_append_only_witness :
  prefix (messages (app (typed Chat (js "hi"))))
         (messages (app (afterEvents Chat
            [Change (js "hi"); Submit; FetchSettled (Normal {| status := 200 |});
             JsonSettled (Normal (JObj [(js "message", JStr (js "yo"))]))])))
  /\ Forall (@knownRole Z)
       (messages (app (afterEvents Chat
            [Change (js "hi"); Submit; FetchSettled (Normal {| status := 200 |});
             JsonSettled (Normal (JObj [(js "message", JStr (js "yo"))]))]))).
Proof.
  destruct (@transcript_append_only Z printInteger Chat
              (typed Chat (js "hi"))
              (afterEvents Chat
                 [Change (js "hi"); Submit;
                  FetchSettled (Normal {| status := 200 |});
                  JsonSettled (Normal (JObj [(js "message", JStr (js "yo"))]))])
              [Submit; FetchSettled (Normal {| status := 200 |});
               JsonSettled (Normal (JObj [(js "message", JStr (js "yo"))]))])
    as [_ [Hprefix [_ Hroles]]].
  - exists [Change (js "hi")]. reflexivity.
  - reflexivity.
  - split; [exact Hprefix | exact Hroles].
Defined.

(** The response [{}] to the chat front end. *)
Lemma missing_reply_falls_back_witness :
  exists w',
    run printInteger Chat (typed Chat (js "hi"))
      (Submit :: settling (answers (JObj [])) [] [])
    = Some (Mounted w')
    /\ messages (app w') =
       messages (app (typed Chat (js "hi")))
       ++ [userMessage (app (typed Chat (js "hi")));
           assistantMessage (JStr fallbackReply)]
    /\ isLoading (app w') = false
    /\ error (app w') = [].
Proof.
  apply (@missing_reply_falls_back Z printInteger Chat
           (typed Chat (js "hi")) (answers (JObj [])) (JObj []) [] []).
  - exists [Change (js "hi")]. reflexivity.
  - reflexivity.
  - intros H. vm_compute in H. discriminate H.
  - reflexivity.
  - reflexivity.
  - reflexivity.
  - reflexivity.
Defined.


(** C3, as it was claimed, fails for Filter: the body
    [{ "content": { "toString": null } }] comes with a 200 response and
    parses, the update of [messages] is queued, and [reply + extra] throws
    a TypeError when the render calls it: the component is removed, and no
    transcript with an assistant message is ever shown. *)
Lemma unprintable_content_unmounts :
  parsedBody
    (answers (JObj [(js "content", JObj [(js "toString", JNull)])]))
  = Normal (JObj [(js "content", JObj [(js "toString", JNull)])])
  /\ isLoading (app (typed Filter (js "hi"))) = false
  /\ trimmedInput (app (typed Filter (js "hi"))) = js "hi"
  /\ run printInteger Filter (typed Filter (js "hi"))
       (Submit ::
        settling
          (answers (JObj [(js "content", JObj [(js "toString", JNull)])]))
          [] [])
     = Some (Unmounted TypeError)
  /\ forall w',
       run printInteger Filter (typed Filter (js "hi"))
         (Submit ::
          settling
            (answers (JObj [(js "content", JObj [(js "toString", JNull)])]))
            [] [])
       <> Some (Mounted w').
Proof.
  split; [reflexivity|]. split; [reflexivity|]. split; [reflexivity|].
  assert (H : run printInteger Filter (typed Filter (js "hi"))
                (Submit ::
                 settling
                   (answers (JObj [(js "content",
                                    JObj [(js "toString", JNull)])]))
                   [] [])
              = Some (Unmounted TypeError)) by (vm_compute; reflexivity).
  split; [exact H|]. intros w'. rewrite H. discriminate.
Qed.

(** C5, as it was claimed, fails: the body [{ "reply": { "a": 1 } }]
    comes with a 200 response and parses, and its [reply] is not nullish;
    the message is stored with the object as content, the render meets
    the object as the child of [chat__bubble] and throws, and the
    component is removed: no assistant message is ever shown. *)
Lemma object_reply_unmounts :
  parsedBody (answers (JObj [(js "reply", JObj [(js "a", JNum 1%Z)])]))
  = Normal (JObj [(js "reply", JObj [(js "a", JNum 1%Z)])])
  /\ nullish (optGet (JObj [(js "reply", JObj [(js "a", JNum 1%Z)])])
                     (js "reply")) = false
  /\ isLoading (app (typed Chat (js "hi"))) = false
  /\ trimmedInput (app (typed Chat (js "hi"))) = js "hi"
  /\ run printInteger Chat (typed Chat (js "hi"))
       (Submit ::
        settling (answers (JObj [(js "reply", JObj [(js "a", JNum 1%Z)])]))
                 [] [])
     = Some (Unmounted InvalidChild)
  /\ forall w',
       run printInteger Chat (typed Chat (js "hi"))
         (Submit ::
          settling (answers (JObj [(js "reply", JObj [(js "a", JNum 1%Z)])]))
                   [] [])
       <> Some (Mounted w').
Proof.
  split; [reflexivity|]. split; [reflexivity|]. split; [reflexivity|].
  split; [reflexivity|].
  assert (H : run printInteger Chat (typed Chat (js "hi"))
                (Submit ::
                 settling
                   (answers (JObj [(js "reply", JObj [(js "a", JNum 1%Z)])]))
                   [] [])
              = Some (Unmounted InvalidChild)) by (vm_compute; reflexivity).
  split; [exact H|]. intros w'. rewrite H. discriminate.
Qed.

(** C9, as it was claimed, fails for Filter: the body [{ "is_safe": false }]
    has no [content], and the message appended is the fallback text
    followed by the filtering notice. *)
Lemma fallback_with_notice :
  parsedBody (answers (JObj [(js "is_safe", JBool false)]))
  = Normal (JObj [(js "is_safe", JBool false)])
  /\ noReply Filter (JObj [(js "is_safe", @JBool Z false)]) = true
  /\ exists w',
       run printInteger Filter (typed Filter (js "hi"))
         (Submit :: settling (answers (JObj [(js "is_safe", JBool false)]))
                               [] [])
       = Some (Mounted w')
       /\ messages (app w') =
          messages (app (typed Filter (js "hi")))
          ++ [userMessage (app (typed Filter (js "hi")));
              assistantMessage (JStr (fallbackReply ++ filterNotice))]
       /\ messages (app w') <>
          messages (app (typed Filter (js "hi")))
          ++ [userMessage (app (typed Filter (js "hi")));
              assistantMessage (JStr fallbackReply)].
Proof.
  split; [reflexivity|]. split; [reflexivity|].
  eexists. split; [vm_compute; reflexivity|].
  split; [reflexivity|].
  intros H. vm_compute in H. discriminate H.
Qed.

(* ===================================================================== *)
(** ** More about the controller *)
(* ===================================================================== *)

Lemma jsstring_eqb_eq (a b : jsstring) : jsstring_eqb a b = true <-> a = b.
Proof.
  revert b. induction a as [|x a IH]; intros [|y b]; simpl;
    try (split; congruence).
  rewrite andb_true_iff, N.eqb_eq, IH. split.
  - intros [-> ->]. reflexivity.
  - intros H. inversion H. auto.
Qed.

Section Accounting.

Variable number : Type.
Variable NumberToString : number -> jsstring.

Lemma handleSubmit_parsed_inv (v : variant)
    (settled : completion (JsVal number)) (st st' : AppState number) :
  handleSubmit_parsed NumberToString v settled st = Normal st' ->
  (exists err, settled = Throw err /\ st' = catchFinally st)
  \/ exists data reply,
       settled = Normal data
       /\ assistantContent NumberToString v data = Normal reply
       /\ st' = {| messages := messages st ++ [assistantMessage reply];
                   input := input st; isLoading := false; error := error st |}.
Proof.
  unfold handleSubmit_parsed, setMessagesWith.
  destruct settled as [data|err].
  - destruct (assistantContent NumberToString v data) as [reply|err] eqn:Hc;
      cbn [bind]; [|discriminate].
    unfold drawBubbles.
    match goal with |- context [if ?b then _ else _] => destruct b end;
      cbn [bind]; intros H; inversion H.
    right. exists data, reply. repeat split. exact Hc.
  - intros H. inversion H. left. exists err. split; reflexivity.
Qed.

(** Everything one event can do to a mounted page: nothing to the
    transcript, the status, the error, the tasks and the requests; an
    accepted submission; a response whose body is then read; the [catch]
    block; or a reply. *)
Lemma step_cases (v : variant) (w w' : World number) (e : Event number) :
  step NumberToString v w e = Some (Mounted w') ->
  (messages (app w') = messages (app w)
   /\ isLoading (app w') = isLoading (app w)
   /\ error (app w') = error (app w)
   /\ tasks w' = tasks w /\ sent w' = sent w)
  \/ (isLoading (app w) = false /\ trimmedInput (app w) <> []
      /\ app w' = {| messages := messages (app w) ++ [userMessage (app w)];
                     input := []; isLoading := true; error := [] |}
      /\ tasks w' = tasks w ++ [AwaitingFetch]
      /\ sent w' =
         sent w ++ [chatRequest v (messages (app w) ++ [userMessage (app w)])])
  \/ (exists rest,
        tasks w = AwaitingFetch :: rest /\ tasks w' = AwaitingJson :: rest
        /\ app w' = app w /\ sent w' = sent w)
  \/ (exists task rest,
        tasks w = task :: rest /\ tasks w' = rest
        /\ app w' = catchFinally (app w) /\ sent w' = sent w)
  \/ (exists rest data reply,
        tasks w = AwaitingJson :: rest /\ tasks w' = rest
        /\ assistantContent NumberToString v data = Normal reply
        /\ app w' = {| messages := messages (app w) ++ [assistantMessage reply];
                       input := input (app w); isLoading := false;
                       error := error (app w) |}
        /\ sent w' = sent w).
Proof.
  intros He. destruct e as [value| |settled|settled]; cbn [step] in He.
  - inversion He; subst. left. cbn. repeat split.
  - destruct (falsy (trimmedInput (app w)) || isLoading (app w)) eqn:Hg.
    + rewrite (handleSubmit_rejected v (app w) Hg) in He.
      inversion He; subst. left. cbn. repeat split.
    + apply orb_false_iff in Hg. destruct Hg as [Hf Hl].
      assert (Hin : trimmedInput (app w) <> [])
        by (intros Hn; rewrite Hn in Hf; discriminate Hf).
      rewrite (handleSubmit_accepted v (app w) Hin Hl) in He.
      inversion He; subst. right; left. cbn. repeat split; assumption.
  - destruct (tasks w) as [|[|] rest] eqn:Ht; try discriminate.
    unfold handleSubmit_fetched in He.
    destruct (response <- settled ;; checkOk response); inversion He; subst.
    + right; right; left. exists rest. cbn. repeat split.
    + right; right; right; left. exists AwaitingFetch, rest. cbn. repeat split.
  - destruct (tasks w) as [|[|] rest] eqn:Ht; try discriminate.
    destruct (handleSubmit_parsed NumberToString v settled (app w))
      as [st|err] eqn:Hp; inversion He; subst.
    destruct (handleSubmit_parsed_inv _ _ _ Hp)
      as [[err [_ ->]] | [data [reply [_ [Hc ->]]]]].
    + right; right; right; left. exists AwaitingJson, rest. cbn. repeat split.
    + right; right; right; right. exists rest, data, reply. cbn.
      repeat split. exact Hc.
Qed.

(** *** Roles and counts *)

Lemma userMessage_roles (st : AppState number) :
  isUser (userMessage st) = true /\ isAssistant (userMessage st) = false.
Proof. split; reflexivity. Qed.

Lemma assistantMessage_roles (reply : JsVal number) :
  isUser (assistantMessage reply) = false
  /\ isAssistant (assistantMessage reply) = true.
Proof. split; reflexivity. Qed.

Lemma countIf_app (p : Message number -> bool) (a b : list (Message number)) :
  countIf p (a ++ b) = countIf p a + countIf p b.
Proof. unfold countIf. rewrite filter_app, length_app. reflexivity. Qed.

Lemma countIf_one (p : Message number -> bool) (m : Message number) :
  countIf p [m] = if p m then 1 else 0.
Proof. unfold countIf. simpl. destruct (p m); reflexivity. Qed.

(** The cases of [step_cases], with the new state written in terms of
    the old one. *)
Ltac by_step_cases v He :=
  let Hm := fresh "Hm" in let Hl := fresh "Hl" in let Herr := fresh "Herr" in
  let Ht := fresh "Ht" in let Hs := fresh "Hs" in let Happ := fresh "Happ" in
  let Hin := fresh "Hin" in let Ht' := fresh "Ht'" in
  let Hc := fresh "Hc" in
  destruct (step_cases v _ _ He)
    as [ [Hm [Hl [Herr [Ht Hs]]]]
       | [ [Hl [Hin [Happ [Ht Hs]]]]
         | [ [? [Ht [Ht' [Happ Hs]]]]
           | [ [? [? [Ht [Ht' [Happ Hs]]]]]
             | [? [? [? [Ht [Ht' [Hc [Happ Hs]]]]]]] ] ] ] ];
  [ rewrite ?Hm, ?Hl, ?Herr, ?Ht, ?Hs
  | rewrite ?Happ, ?Ht, ?Hs; cbn [messages isLoading error input]
  | rewrite ?Happ, ?Ht', ?Hs
  | rewrite ?Happ, ?Ht', ?Hs; cbn [catchFinally setIsLoading setError
                                    messages isLoading error input]
  | rewrite ?Happ, ?Ht', ?Hs; cbn [messages isLoading error input] ].

(** X1 — One request per user message, and never more replies than
    questions: in every reachable state the number of requests handed to
    [fetch] is the number of user messages of the transcript, and the
    assistant messages together with the requests still in flight are at
    most one (the greeting) more than the user messages. *)
Theorem one_request_per_user_message (v : variant) (w : World number) :
  reachable NumberToString v w ->
  length (sent w) = countIf (@isUser number) (messages (app w))
  /\ countIf (@isAssistant number) (messages (app w)) + length (tasks w)
     <= 1 + countIf (@isUser number) (messages (app w)).
Proof.
  intros [events Hrun].
  eapply run_invariant with
    (P := fun x =>
            length (sent x) = countIf (@isUser number) (messages (app x))
            /\ countIf (@isAssistant number) (messages (app x))
               + length (tasks x)
               <= 1 + countIf (@isUser number) (messages (app x)));
    [ | | exact Hrun].
  - intros w1 e w2 [Hsent Hle] He. by_step_cases v He.
    + split; assumption.
    + rewrite !countIf_app, !countIf_one, !length_app.
      destruct (userMessage_roles (app w1)) as [-> ->]. simpl. lia.
    + rewrite Ht in Hle. simpl in *. split; [assumption | lia].
    + rewrite Ht in Hle. simpl in *. split; [assumption | lia].
    + rewrite Ht in Hle. rewrite !countIf_app, !countIf_one.
      destruct (assistantMessage_roles x1) as [-> ->]. simpl in *. lia.
  - split; [reflexivity|]. cbn [init app tasks messages length].
    unfold initialMessages. rewrite !countIf_one.
    change (isAssistant {| role := js "assistant";
                           content := JStr (greeting v) |}) with true.
    change (isUser {| role := js "assistant";
                      content := @JStr number (greeting v) |}) with false.
    simpl. lia.
Qed.

(** *** The order of the transcript *)

Lemma last_cons_default (A : Type) (l : list A) (x d : A) :
  last (x :: l) d = last l x.
Proof.
  revert x d. induction l as [|y l IH]; intros x d; [reflexivity|].
  change (last (x :: y :: l) d) with (last (y :: l) d).
  rewrite (IH y d). symmetry. apply IH.
Qed.

Lemma repliesFollowQuestions_app (l : list (Message number))
    (previous x : Message number) :
  repliesFollowQuestions previous (l ++ [x]) =
  repliesFollowQuestions previous l
  && (negb (isAssistant x) || isUser (last l previous)).
Proof.
  revert previous. induction l as [|m l IH]; intros previous.
  - simpl. rewrite andb_true_r. reflexivity.
  - change ((m :: l) ++ [x]) with (m :: (l ++ [x])).
    cbn [repliesFollowQuestions]. rewrite IH, last_cons_default.
    rewrite andb_assoc. reflexivity.
Qed.

(** X2 — Every reply answers a question: in every reachable state the
    transcript starts with the greeting, each assistant message after it
    comes right after a user message, and while a request is in flight
    the last message of the transcript is a user message. *)
Theorem replies_follow_questions (v : variant) (w : World number) :
  reachable NumberToString v w ->
  exists tail,
    messages (app w) = assistantMessage (JStr (greeting v)) :: tail
    /\ repliesFollowQuestions (assistantMessage (JStr (greeting v))) tail = true
    /\ (isLoading (app w) = true ->
        isUser (last (messages (app w)) (assistantMessage (JStr (greeting v))))
        = true).
Proof.
  intros Hr. pose proof Hr as [events Hrun].
  set (g := assistantMessage (@JStr number (greeting v))).
  assert (H : singleFlight w /\
              exists tail,
                messages (app w) = g :: tail
                /\ repliesFollowQuestions g tail = true
                /\ (isLoading (app w) = true ->
                    isUser (last (messages (app w)) g) = true));
    [|exact (proj2 H)].
  eapply run_invariant with
    (P := fun x =>
            singleFlight x /\
            exists tail,
              messages (app x) = g :: tail
              /\ repliesFollowQuestions g tail = true
              /\ (isLoading (app x) = true ->
                  isUser (last (messages (app x)) g) = true));
    [ | | exact Hrun].
  - intros w1 e w2 [Hsf [tail [Hmsg [Hfollow Hlast]]]] He.
    split; [exact (step_singleFlight NumberToString v e Hsf He)|].
    unfold singleFlight in Hsf. by_step_cases v He.
    + exists tail. repeat split; assumption.
    + exists (tail ++ [userMessage (app w1)]). rewrite Hmsg. split; [reflexivity|].
      rewrite repliesFollowQuestions_app, Hfollow.
      destruct (userMessage_roles (app w1)) as [Hu Ha]. rewrite Ha.
      split; [reflexivity|]. intros _.
      change (g :: tail ++ [userMessage (app w1)])
        with ((g :: tail) ++ [userMessage (app w1)]).
      rewrite last_last. exact Hu.
    + exists tail. repeat split; assumption.
    + exists tail. split; [exact Hmsg|]. split; [exact Hfollow|].
      intros Hf. discriminate Hf.
    + assert (Hload : isLoading (app w1) = true).
      { rewrite Ht in Hsf. destruct (isLoading (app w1));
          [reflexivity | discriminate Hsf]. }
      exists (tail ++ [assistantMessage x1]). rewrite Hmsg.
      split; [reflexivity|]. split; [|intros Hf; discriminate Hf].
      rewrite repliesFollowQuestions_app, Hfollow.
      specialize (Hlast Hload). rewrite Hmsg, last_cons_default in Hlast.
      rewrite Hlast, orb_true_r. reflexivity.
  - split; [reflexivity|]. exists []. split; [reflexivity|].
    split; [reflexivity|]. intros Hf. discriminate Hf.
Qed.

(** X3 — The error shown is the one fixed message: in every reachable
    state the error is empty or is that message, and it is empty while a
    request is in flight; so the error paragraph of the view is absent or
    shows that message, and is absent while a request is in flight. *)
Theorem error_is_empty_or_fixed (v : variant) (w : World number) :
  reachable NumberToString v w ->
  (error (app w) = [] \/ error (app w) = sendFailure)
  /\ (isLoading (app w) = true -> error (app w) = [])
  /\ (errorParagraph (render (app w)) = None
      \/ errorParagraph (render (app w)) = Some sendFailure)
  /\ (isLoading (app w) = true -> errorParagraph (render (app w)) = None).
Proof.
  intros [events Hrun].
  assert (H : (error (app w) = [] \/ error (app w) = sendFailure)
              /\ (isLoading (app w) = true -> error (app w) = [])).
  { eapply run_invariant with
      (P := fun x =>
              (error (app x) = [] \/ error (app x) = sendFailure)
              /\ (isLoading (app x) = true -> error (app x) = []));
      [ | | exact Hrun].
    - intros w1 e w2 [Hval Hload] He. by_step_cases v He.
      + split; assumption.
      + split; [left; reflexivity | reflexivity].
      + split; assumption.
      + split; [right; reflexivity | intros Hf; discriminate Hf].
      + split; [exact Hval | intros Hf; discriminate Hf].
    - split; [left; reflexivity | reflexivity]. }
  destruct H as [Hval Hload].
  split; [exact Hval|]. split; [exact Hload|].
  unfold render. cbn [errorParagraph]. split.
  - destruct Hval as [-> | ->]; [left | right]; reflexivity.
  - intros Hl. rewrite (Hload Hl). reflexivity.
Qed.

Lemma filter_reply_isString (data reply : JsVal number) :
  assistantContent NumberToString Filter data = Normal reply ->
  isString reply.
Proof.
  unfold assistantContent, concat.
  destruct (ToString NumberToString
              (coalesce (optGet data (js "content")) (JStr fallbackReply)))
    as [s|err]; cbn [bind]; intros H; inversion H.
  eexists. reflexivity.
Qed.

(** X4 — The filter front end only ever stores strings: in every state
    reachable with it, the content of each message of the transcript is a
    string, whatever the bodies of the responses were. *)
Theorem filter_contents_are_strings (w : World number) :
  reachable NumberToString Filter w ->
  Forall (fun m => isString (content m)) (messages (app w)).
Proof.
  intros [events Hrun].
  eapply run_invariant with
    (P := fun x => Forall (fun m => isString (content m)) (messages (app x)));
    [ | | exact Hrun].
  - intros w1 e w2 Hall He. by_step_cases Filter He; try exact Hall.
    + apply Forall_app. split; [exact Hall|].
      apply Forall_cons; [|apply Forall_nil]. eexists. reflexivity.
    + apply Forall_app. split; [exact Hall|].
      apply Forall_cons; [|apply Forall_nil].
      exact (filter_reply_isString _ Hc).
  - apply Forall_cons; [|apply Forall_nil]. eexists. reflexivity.
Qed.

(** *** The requests *)

Lemma prefix_trans (a b c : list (Message number)) :
  prefix a b -> prefix b c -> prefix a c.
Proof.
  intros [x ->] [y ->]. exists (x ++ y). symmetry. apply app_assoc.
Qed.

Lemma prefix_snoc (a : list (Message number)) (m : Message number) :
  prefix a (a ++ [m]).
Proof. exists [m]. reflexivity. Qed.

Lemma sentFrom_later (v : variant) (before after : list (Message number))
    (request : Request number) :
  prefix before after -> sentFrom v before request -> sentFrom v after request.
Proof.
  intros Hp [between [text [Hreq [Htext Hpre]]]].
  exists between, text. repeat split; try assumption.
  exact (prefix_trans Hpre Hp).
Qed.

(** X5 — What the server is sent: in every reachable state, each request
    handed to [fetch] so far is a POST of [{ messages }] to the endpoint
    of the front end, whose messages start with the greeting, end with a
    user message that is not empty, and are the start of the present
    transcript. *)
Theorem requests_carry_the_transcript (v : variant) (w : World number) :
  reachable NumberToString v w ->
  Forall (sentFrom v (messages (app w))) (sent w).
Proof.
  intros [events Hrun].
  assert (H : prefix (initialMessages number v) (messages (app w))
              /\ Forall (sentFrom v (messages (app w))) (sent w));
    [|exact (proj2 H)].
  eapply run_invariant with
    (P := fun x => prefix (initialMessages number v) (messages (app x))
                   /\ Forall (sentFrom v (messages (app x))) (sent x));
    [ | | exact Hrun].
  - intros w1 e w2 [Hstart Hall] He. by_step_cases v He.
    + split; assumption.
    + split; [exact (prefix_trans Hstart (prefix_snoc _ _))|].
      apply Forall_app. split.
      * eapply Forall_impl; [|exact Hall].
        intros r. apply sentFrom_later, prefix_snoc.
      * apply Forall_cons; [|apply Forall_nil].
        destruct Hstart as [between Hbetween].
        exists between, (trimmedInput (app w1)).
        unfold userMessage. rewrite Hbetween, <- !app_assoc.
        split; [reflexivity|]. split; [exact Hin|].
        exists []. symmetry. apply app_nil_r.
    + split; assumption.
    + split; assumption.
    + split; [exact (prefix_trans Hstart (prefix_snoc _ _))|].
      eapply Forall_impl; [|exact Hall].
      intros r. apply sentFrom_later, prefix_snoc.
  - split; [exists []; symmetry; apply app_nil_r | apply Forall_nil].
Qed.

(** *** When the component is removed *)

Lemma unprintable_not_nullish (x : JsVal number) :
  printable x = false -> nullish x = false.
Proof. destruct x; simpl; congruence. Qed.

Lemma assistantContent_throws (v : variant) (data : JsVal number)
    (err : JsError) :
  assistantContent NumberToString v data = Throw err ->
  v = Filter /\ err = TypeError
  /\ printable (optGet data (js "content")) = false.
Proof.
  destruct v; [discriminate|].
  unfold assistantContent, concat.
  pose proof (ToString_printable NumberToString
                (coalesce (optGet data (js "content")) (JStr fallbackReply)))
    as Hp.
  destruct (printable (coalesce (optGet data (js "content"))
                                (JStr fallbackReply))) eqn:Hc.
  - destruct Hp as [s Hs]. rewrite Hs. discriminate.
  - rewrite Hp. cbn [bind]. intros H. inversion H.
    split; [reflexivity|]. split; [reflexivity|].
    destruct (printable (optGet data (js "content"))) eqn:Hd; [|reflexivity].
    rewrite (@coalesce_printable number (optGet data (js "content"))
               (JStr fallbackReply) Hd eq_refl) in Hc.
    discriminate Hc.
Qed.

Lemma unprintable_content_throws (data : JsVal number) :
  printable (optGet data (js "content")) = false ->
  assistantContent NumberToString Filter data = Throw TypeError.
Proof.
  intros Hd. unfold assistantContent, concat, coalesce.
  rewrite (unprintable_not_nullish _ Hd).
  pose proof (ToString_printable NumberToString (optGet data (js "content")))
    as Hp.
  rewrite Hd in Hp. rewrite Hp. reflexivity.
Qed.

Lemma step_unmounted (v : variant) (w : World number) (e : Event number)
    (err : JsError) :
  step NumberToString v w e = Some (Unmounted err) ->
  exists data,
    e = JsonSettled (Normal data)
    /\ handleSubmit_parsed NumberToString v (Normal data) (app w) = Throw err.
Proof.
  destruct e as [value| |settled|settled]; cbn [step].
  - discriminate.
  - destruct (handleSubmit v (app w)) as [st [request|]]; discriminate.
  - destruct (tasks w) as [|[|] rest]; try discriminate.
    destruct (handleSubmit_fetched settled (app w)) as [st [task|]];
      discriminate.
  - destruct (tasks w) as [|[|] rest]; try discriminate.
    destruct settled as [data|err']; [|discriminate].
    destruct (handleSubmit_parsed NumberToString v (Normal data) (app w))
      as [st|err'] eqn:Hp; intros H; inversion H; subst.
    exists data. split; [reflexivity | exact Hp].
Qed.

(** The render after a parsed body throws, from a transcript that could
    be drawn, only for a reply that cannot be converted or drawn. *)
Lemma parsed_throws (v : variant) (data : JsVal number)
    (st : AppState number) (err : JsError) :
  drawable (messages st) ->
  handleSubmit_parsed NumberToString v (Normal data) st = Throw err ->
  convertible v data = false
  /\ err = match v with Chat => InvalidChild | Filter => TypeError end.
Proof.
  intros Hdraw. unfold handleSubmit_parsed, setMessagesWith.
  destruct (assistantContent NumberToString v data) as [reply|err'] eqn:Hc;
    cbn [bind].
  - unfold drawBubbles. cbn [messages]. rewrite forallb_app, Hdraw.
    cbn [forallb content andb]. rewrite andb_true_r.
    destruct (renderable reply) eqn:Hr; cbn [bind]; intros H; inversion H.
    destruct v.
    + split; [|reflexivity]. inversion Hc; subst. exact Hr.
    + destruct (filter_reply_isString _ Hc) as [s ->]. discriminate Hr.
  - intros H. inversion H; subst.
    destruct (assistantContent_throws v data Hc) as [-> [-> Hp]].
    split; [exact Hp | reflexivity].
Qed.

Lemma step_drawable (v : variant) (w w' : World number) (e : Event number) :
  drawable (messages (app w)) ->
  step NumberToString v w e = Some (Mounted w') ->
  drawable (messages (app w')).
Proof.
  unfold drawable. intros Hw He.
  destruct (@step_transcript number NumberToString v w w' e He)
    as [H | [[H _] | [reply [H Hr]]]];
    rewrite H; [exact Hw | |]; rewrite forallb_app, Hw;
    cbn [forallb content userMessage assistantMessage renderable andb];
    [reflexivity | rewrite Hr; reflexivity].
Qed.

(** X6 — The component is removed for one reason only: from a state
    whose transcript could be drawn, whatever the events, a run ends with
    the component removed only after a parsed body whose reply cannot be
    stored or drawn.  In the chat front end that is a reply ([reply],
    else [message]) that is an object or an array holding one, and the
    render throws on the invalid child; in the filter front end it is a
    [content] that cannot be converted to a string, and the update throws
    a TypeError. *)
Theorem unmounted_only_by_the_reply (v : variant)
    (events : list (Event number)) (w : World number) (err : JsError) :
  drawable (messages (app w)) ->
  run NumberToString v w events = Some (Unmounted err) ->
  err = match v with Chat => InvalidChild | Filter => TypeError end
  /\ exists data,
       In (JsonSettled (Normal data)) events
       /\ convertible v data = false.
Proof.
  revert w. induction events as [|e events IH]; intros w Hdraw Hrun;
    simpl in Hrun; [discriminate|].
  destruct (step NumberToString v w e) as [[w1|err1]|] eqn:He;
    [ | | discriminate].
  - destruct (IH w1 (@step_drawable v w w1 e Hdraw He) Hrun)
      as [Herr [data [Hin Hp]]].
    split; [exact Herr|]. exists data. split; [right; exact Hin | exact Hp].
  - inversion Hrun; subst.
    destruct (step_unmounted v w e He) as [data [-> Hp]].
    destruct (@parsed_throws v data (app w) err Hdraw Hp) as [Hconv Herr].
    split; [exact Herr|]. exists data. split; [left; reflexivity | exact Hconv].
Qed.

(** X7 — And it is removed every time: in the filter front end, an
    accepted submission answered by a 2xx response whose parsed body has
    a [content] that cannot be converted to a string (an object with an
    own property [toString], or an array holding one) always ends with the
    component removed by a TypeError. *)
Theorem filter_unmounts_on_unprintable_content (w : World number)
    (o : Outcome number) (data : JsVal number)
    (during1 during2 : list (Event number)) :
  reachable NumberToString Filter w ->
  isLoading (app w) = false -> trimmedInput (app w) <> [] ->
  parsedBody o = Normal data ->
  printable (optGet data (js "content")) = false ->
  forallb (@userEvent number) during1 = true ->
  forallb (@userEvent number) during2 = true ->
  run NumberToString Filter w (Submit :: settling o during1 during2)
  = Some (Unmounted TypeError).
Proof.
  intros Hr Hl Hin Ho Hd Hd1 Hd2.
  pose proof (@cycle_run number NumberToString Filter w o during1 during2
                (@reachable_idle number NumberToString Filter w Hr Hl)
                Hl Hin (@reachable_drawable number NumberToString Filter w Hr)
                Hd1 Hd2) as H.
  assert (Hend : ending NumberToString Filter o = Crashed TypeError)
    by (unfold ending; rewrite Ho, (unprintable_content_throws data Hd);
        reflexivity).
  rewrite Hend in H. exact H.
Qed.

(** X14 — The chat front end is removed by a reply it cannot draw: an
    accepted submission answered by a 2xx response whose parsed body has
    a reply ([reply], else [message]) that is an object or an array
    holding one always ends with the render throwing on the invalid child,
    that is with the component removed, whatever the user does
    meanwhile. *)
Theorem chat_unmounts_on_invalid_child (w : World number)
    (o : Outcome number) (data : JsVal number)
    (during1 during2 : list (Event number)) :
  reachable NumberToString Chat w ->
  isLoading (app w) = false -> trimmedInput (app w) <> [] ->
  parsedBody o = Normal data ->
  renderable
    (coalesce (coalesce (optGet data (js "reply")) (optGet data (js "message")))
              (JStr fallbackReply)) = false ->
  forallb (@userEvent number) during1 = true ->
  forallb (@userEvent number) during2 = true ->
  run NumberToString Chat w (Submit :: settling o during1 during2)
  = Some (Unmounted InvalidChild).
Proof.
  intros Hr Hl Hin Ho Hd Hd1 Hd2.
  pose proof (@cycle_run number NumberToString Chat w o during1 during2
                (@reachable_idle number NumberToString Chat w Hr Hl)
                Hl Hin (@reachable_drawable number NumberToString Chat w Hr)
                Hd1 Hd2) as H.
  assert (Hend : ending NumberToString Chat o = Crashed InvalidChild).
  { unfold ending. rewrite Ho. unfold assistantContent. rewrite Hd.
    reflexivity. }
  rewrite Hend in H. exact H.
Qed.

(** *** The guard, seen from the input and from the button *)

Lemma hasVisible_not_blank (s : jsstring) :
  hasVisible s = negb (forallb isWhiteSpace s).
Proof.
  unfold hasVisible. induction s as [|c s IH]; [reflexivity|].
  simpl. rewrite IH. destruct (isWhiteSpace c); reflexivity.
Qed.

Lemma trimmedInput_falsy (st : AppState number) :
  falsy (trimmedInput st) = negb (hasVisible (input st)).
Proof.
  rewrite hasVisible_not_blank, negb_involutive. unfold trimmedInput.
  destruct (forallb isWhiteSpace (input st)) eqn:Hb.
  - apply falsy_nil, trim_nil. exact Hb.
  - destruct (falsy (trim (input st))) eqn:Hf; [|reflexivity].
    apply falsy_nil, trim_nil in Hf. congruence.
Qed.

(** X8 — When a submission sends something: [handleSubmit] hands a
    request to [fetch] exactly when no request is in flight and the input
    holds a code unit that is not white space; in every other case it
    returns the state it was given. *)
Theorem sends_iff_idle_and_visible_text (v : variant) (st : AppState number) :
  ((exists st' request, handleSubmit v st = (st', Some request))
   <-> isLoading st = false /\ hasVisible (input st) = true)
  /\ (handleSubmit v st = (st, None)
      <-> isLoading st = true \/ hasVisible (input st) = false).
Proof.
  pose proof (trimmedInput_falsy st) as Hf.
  unfold handleSubmit. rewrite Hf.
  destruct (hasVisible (input st)), (isLoading st); cbn [negb orb];
    (split; split);
    try (intros [? [? H]]; discriminate H);
    try (intros [H1 H2]; discriminate);
    try (intros [H|H]; discriminate H);
    try (intros H; discriminate H);
    try (intros _; eauto; fail);
    try (intros _; reflexivity).
Qed.

(** X9 — The submit button tells what [handleSubmit] will do: it is
    disabled exactly in the states where a submission is ignored, and
    enabled exactly in those where a submission sends a request. *)
Theorem submit_button_matches_guard (v : variant) (st : AppState number) :
  (submitDisabled (render st) = true <-> handleSubmit v st = (st, None))
  /\ (submitDisabled (render st) = false
      <-> exists st' request, handleSubmit v st = (st', Some request)).
Proof.
  unfold render, handleSubmit. cbn [submitDisabled].
  destruct (falsy (trimmedInput st) || isLoading st); split; split;
    try reflexivity; try discriminate; eauto.
  intros [st' [request H]]. discriminate H.
Qed.

(** *** The view *)

Lemma digits_no_dash (u : Decimal.uint) :
  Forall (fun c => c <> 45%N) (digits u).
Proof.
  induction u; simpl; constructor; try assumption; discriminate.
Qed.

Lemma digits_inj (u u' : Decimal.uint) : digits u = digits u' -> u = u'.
Proof.
  revert u'. induction u; destruct u'; simpl; intros H;
    try discriminate H; try reflexivity;
    inversion H; f_equal; auto.
Qed.

Lemma indexString_inj (i j : nat) : indexString i = indexString j -> i = j.
Proof.
  unfold indexString. intros H.
  apply DecimalNat.Unsigned.to_uint_inj, digits_inj, H.
Qed.

Lemma first_split (c : N) (p p' q q' : list N) :
  ~ In c p -> ~ In c p' -> p ++ c :: q = p' ++ c :: q' -> p = p'.
Proof.
  revert p'. induction p as [|x p IH]; intros [|y p'] Hp Hp' H; simpl in *.
  - reflexivity.
  - inversion H; subst. exfalso. apply Hp'. left. reflexivity.
  - inversion H; subst. exfalso. apply Hp. left. reflexivity.
  - inversion H; subst. f_equal. apply IH; auto.
Qed.

(** The key [`${role}-${index}`] gives back its index. *)
Lemma key_index (r r' : jsstring) (i j : nat) :
  r ++ js "-" ++ indexString i = r' ++ js "-" ++ indexString j -> i = j.
Proof.
  change (js "-") with [45%N]. cbn [List.app]. intros H.
  apply (f_equal (@rev N)) in H.
  rewrite !rev_app_distr in H. cbn [rev] in H. rewrite <- !app_assoc in H.
  cbn [List.app] in H.
  apply indexString_inj. rewrite <- (rev_involutive (indexString i)),
    <- (rev_involutive (indexString j)). f_equal.
  apply (first_split 45%N) with (q := rev r) (q' := rev r'); [| |exact H];
    intros Hin; apply in_rev in Hin;
    pose proof (digits_no_dash (Nat.to_uint i)) as Hi;
    pose proof (digits_no_dash (Nat.to_uint j)) as Hj;
    rewrite Forall_forall in Hi, Hj;
    [exact (Hi _ Hin eq_refl) | exact (Hj _ Hin eq_refl)].
Qed.

Lemma keys_from (l : list (Message number)) (start : nat) (a : Article number) :
  In a (mapIndexed (@article number) l start) ->
  exists (m : Message number) i,
    start <= i /\ key a = role m ++ js "-" ++ indexString i.
Proof.
  revert start. induction l as [|x l IH]; intros start; simpl; [tauto|].
  intros [<- | Hin].
  - exists x, start. split; [lia | reflexivity].
  - destruct (IH (S start) Hin) as [m [i [Hle Hk]]].
    exists m, i. split; [lia | exact Hk].
Qed.

Lemma keys_unique_from (l : list (Message number)) (start : nat) :
  NoDup (map (@key number) (mapIndexed (@article number) l start)).
Proof.
  revert start. induction l as [|x l IH]; intros start; simpl;
    constructor; [|apply IH].
  intros Hin. apply in_map_iff in Hin. destruct Hin as [a [Hkey Ha]].
  destruct (keys_from l (S start) a Ha) as [m [i [Hle Hk]]].
  rewrite Hk in Hkey. cbn [article key] in Hkey.
  apply key_index in Hkey. lia.
Qed.

(** X10 — The keys of the log are unique: whatever the transcript holds
    (any roles, any number of messages), no two [<article>] elements of a
    render have the same [key]. *)
Theorem article_keys_unique (st : AppState number) :
  NoDup (map (@key number) (articles (render st))).
Proof. unfold render. cbn [articles]. apply keys_unique_from. Qed.

Lemma labels_differ : js "전송 중..." <> js "보내기".
Proof. intros H. vm_compute in H. discriminate H. Qed.

Lemma articles_from (l : list (Message number)) (start : nat) :
  Forall (@knownRole number) l ->
  Forall2
    (fun m a =>
       bubble a = content m
       /\ ((role m = js "user" /\ meta a = js "나"
            /\ className a = js "chat__message chat__message--user")
           \/ (role m = js "assistant" /\ meta a = js "봇"
               /\ className a = js "chat__message chat__message--assistant")))
    l (mapIndexed (@article number) l start).
Proof.
  intros Hall. revert start.
  induction Hall as [|m l Hm _ IH]; intros start; simpl; constructor;
    [|apply IH].
  split; [reflexivity|]. cbn [article meta className].
  destruct Hm as [Hrole | Hrole]; rewrite Hrole; [left | right];
    repeat split; reflexivity.
Qed.

(** X11 — The view follows the request: in every reachable state the
    textarea is disabled and the button reads "sending" exactly while a
    request is in flight (then the button is disabled too), the button
    reads "send" exactly when none is, and the log shows the transcript
    message by message, each with the label and the class of its role. *)
Theorem view_follows_the_request (v : variant) (w : World number) :
  reachable NumberToString v w ->
  (textareaDisabled (render (app w)) = true <-> tasks w <> [])
  /\ (submitLabel (render (app w)) = js "전송 중..." <-> tasks w <> [])
  /\ (submitLabel (render (app w)) = js "보내기" <-> tasks w = [])
  /\ (tasks w <> [] -> submitDisabled (render (app w)) = true)
  /\ Forall2
       (fun m a =>
          bubble a = content m
          /\ ((role m = js "user" /\ meta a = js "나"
               /\ className a = js "chat__message chat__message--user")
              \/ (role m = js "assistant" /\ meta a = js "봇"
                  /\ className a = js "chat__message chat__message--assistant")))
       (messages (app w)) (articles (render (app w))).
Proof.
  intros Hr.
  pose proof (@reachable_singleFlight number NumberToString v w Hr) as Hsf.
  pose proof (@reachable_knownRole number NumberToString v w Hr) as Hroles.
  unfold singleFlight in Hsf. unfold render.
  cbn [textareaDisabled submitLabel submitDisabled articles].
  split; [|split; [|split; [|split]]].
  - destruct (isLoading (app w)), (tasks w); simpl in Hsf; split;
      congruence.
  - destruct (isLoading (app w)), (tasks w); simpl in Hsf; split;
      try congruence.
    intros H. symmetry in H. exfalso. exact (labels_differ H).
  - destruct (isLoading (app w)), (tasks w); simpl in Hsf; split;
      try congruence.
    intros H. exfalso. exact (labels_differ H).
  - intros Ht. destruct (isLoading (app w)), (tasks w); simpl in Hsf;
      try congruence. apply orb_true_r.
  - apply articles_from. exact Hroles.
Qed.

(** *** One request after another *)

(** X12 — A failure does not block the next submission: after an
    accepted submission whose request fails, typing a text that is not
    blank and submitting again is accepted, and when that request
    succeeds with a reply that can be stored, the transcript is the old
    one followed by both user messages and the reply, the status is idle
    and the error of the first request is gone. *)
Theorem retry_after_failure (v : variant) (w : World number)
    (o1 o2 : Outcome number) (e : JsError) (data : JsVal number)
    (text : jsstring) (during1 during2 during3 during4 : list (Event number)) :
  reachable NumberToString v w ->
  isLoading (app w) = false -> trimmedInput (app w) <> [] ->
  parsedBody o1 = Throw e ->
  trim text <> [] ->
  parsedBody o2 = Normal data -> convertible v data = true ->
  forallb (@userEvent number) during1 = true ->
  forallb (@userEvent number) during2 = true ->
  forallb (@userEvent number) during3 = true ->
  forallb (@userEvent number) during4 = true ->
  exists w' reply,
    run NumberToString v w
      ((Submit :: settling o1 during1 during2)
         ++ Change text :: Submit :: settling o2 during3 during4)
    = Some (Mounted w')
    /\ messages (app w') =
       messages (app w)
       ++ [ userMessage (app w);
            {| role := js "user"; content := JStr (trim text) |};
            assistantMessage reply ]
    /\ isLoading (app w') = false
    /\ error (app w') = [].
Proof.
  intros Hr Hl Hin Ho1 Htext Ho2 Hconv Hd1 Hd2 Hd3 Hd4.
  pose proof (@cycle_run number NumberToString v w o1 during1 during2
                (@reachable_idle number NumberToString v w Hr Hl)
                Hl Hin (@reachable_drawable number NumberToString v w Hr)
                Hd1 Hd2) as H1.
  assert (Hend : ending NumberToString v o1 = Failed)
    by (unfold ending; rewrite Ho1; reflexivity).
  rewrite Hend in H1. destruct H1 as [w1 [Hrun1 [Hm1 [Hl1 _]]]].
  pose proof (@reachable_run number NumberToString v w w1 _ Hr Hrun1) as Hr1.
  set (w2 := {| app := setInput text (app w1); tasks := tasks w1;
                sent := sent w1 |}).
  assert (Hr2 : reachable NumberToString v w2).
  { apply (@reachable_run number NumberToString v w1 w2 [Change text] Hr1).
    reflexivity. }
  destruct (@convertible_reply number NumberToString v data Hconv)
    as [reply [Hreply Hdraw]].
  destruct (@cycle_success number NumberToString v w2 o2 data reply
              during3 during4 Hr2 Hl1 Htext Ho2 Hreply Hdraw Hd3 Hd4)
    as [w' [Hrun2 [Hm2 [Hl2 He2]]]].
  exists w', reply. split; [|split; [|split; assumption]].
  - rewrite run_app, Hrun1. exact Hrun2.
  - rewrite Hm2. cbn [w2 app setInput messages]. rewrite Hm1, <- app_assoc.
    reflexivity.
Qed.

(** *** Stored text *)

Lemma trim_clean_id (s : jsstring) :
  startsClean s = true -> endsClean s = true -> trim s = s.
Proof.
  assert (Hstart : forall t, startsClean t = true -> trimStart t = t).
  { intros [|c t]; simpl; [reflexivity|].
    destruct (isWhiteSpace c); [discriminate | reflexivity]. }
  intros Hs He. unfold trim, trimEnd. rewrite (Hstart s Hs).
  unfold endsClean in He. rewrite (Hstart (rev s) He).
  apply rev_involutive.
Qed.

(** X13 — What is stored is stable under [trim]: in every reachable
    state, the content of each user message of the transcript is a string
    that [trim] leaves as it is, so that typing it again and submitting
    stores the same text. *)
Theorem user_messages_are_stable (v : variant) (w : World number) :
  reachable NumberToString v w ->
  Forall (fun m => role m = js "user" ->
                   exists s, content m = JStr s /\ trim s = s /\ s <> [])
         (messages (app w)).
Proof.
  intros Hr.
  pose proof (@reachable_trimmed number NumberToString v w Hr) as Hall.
  eapply Forall_impl; [|exact Hall].
  intros m Hm Hrole. destruct (Hm Hrole) as [s [Hs [Hne [Hc1 Hc2]]]].
  exists s. split; [exact Hs|]. split; [|exact Hne].
  apply trim_clean_id; assumption.
Qed.

End Accounting.

(* ===================================================================== *)
(** ** More concrete runs *)
(* ===================================================================== *)

Example conversation_transcript :
  map (@role Z) (messages (app (afterEvents Chat conversation)))
  = [js "assistant"; js "user"; js "user"; js "assistant"; js "user"].
Proof. reflexivity. Qed.

Example oddContents_transcript :
  map (@content Z) (messages (app (afterEvents Filter oddContents)))
  = [ JStr (greeting Filter); JStr (js "a"); JStr (js "7");
      JStr (js "b"); JStr (js "true,") ].
Proof. reflexivity. Qed.

(** The keys of a transcript of five messages. *)
Example conversation_keys :
  map (@key Z) (articles (render (app (afterEvents Chat conversation))))
  = [js "assistant-0"; js "user-1"; js "user-2"; js "assistant-3"; js "user-4"].
Proof. reflexivity. Qed.

Lemma one_request_per_user_message_witness :
  length (sent (afterEvents Chat conversation)) = 3.
Proof.
  destruct (@one_request_per_user_message Z printInteger Chat
              (afterEvents Chat conversation)) as [Hsent _].
  - exists conversation. reflexivity.
  - rewrite Hsent. reflexivity.
Defined.

Lemma replies_follow_questions_witness :
  exists tail,
    messages (app (afterEvents Filter secondAttempt))
    = assistantMessage (JStr (greeting Filter)) :: tail
    /\ repliesFollowQuestions (assistantMessage (JStr (greeting Filter))) tail
       = true.
Proof.
  destruct (@replies_follow_questions Z printInteger Filter
              (afterEvents Filter secondAttempt)) as [tail [Hm [Hf _]]].
  - exists secondAttempt. reflexivity.
  - exists tail. split; assumption.
Defined.

Lemma error_is_empty_or_fixed_witness :
  errorParagraph (render (app (afterEvents Chat unavailable))) = None
  \/ errorParagraph (render (app (afterEvents Chat unavailable)))
     = Some sendFailure.
Proof.
  destruct (@error_is_empty_or_fixed Z printInteger Chat
              (afterEvents Chat unavailable)) as [_ [_ [Hview _]]].
  - exists unavailable. reflexivity.
  - exact Hview.
Defined.

Lemma filter_contents_are_strings_witness :
  Forall (fun m => isString (content m))
    (messages (app (afterEvents Filter oddContents))).
Proof.
  apply (@filter_contents_are_strings Z printInteger
           (afterEvents Filter oddContents)).
  exists oddContents. reflexivity.
Defined.

Lemma requests_carry_the_transcript_witness :
  Forall (sentFrom Chat (messages (app (afterEvents Chat conversation))))
         (sent (afterEvents Chat conversation)).
Proof.
  apply (@requests_carry_the_transcript Z printInteger Chat
           (afterEvents Chat conversation)).
  exists conversation. reflexivity.
Defined.

Lemma unmounted_only_by_the_reply_witness :
  exists data,
    In (JsonSettled (Normal data)) unprintableContent
    /\ convertible Filter data = false.
Proof.
  destruct (@unmounted_only_by_the_reply Z printInteger Filter
              unprintableContent (init Z Filter) TypeError) as [_ H].
  - reflexivity.
  - reflexivity.
  - exact H.
Defined.

(** The chat back end answers [{ "message": [{ "x": 1 }] }]. *)
Lemma chat_unmounts_on_invalid_child_witness :
  run printInteger Chat (typed Chat (js "hi"))
    (Submit ::
     settling
       (answers (JObj [(js "message", JArr [JObj [(js "x", JNum 1%Z)]])]))
       [Change (js "typing")] [Submit])
  = Some (Unmounted InvalidChild).
Proof.
  apply (@chat_unmounts_on_invalid_child Z printInteger
           (typed Chat (js "hi"))
           (answers (JObj [(js "message", JArr [JObj [(js "x", JNum 1%Z)]])]))
           (JObj [(js "message", JArr [JObj [(js "x", JNum 1%Z)]])])
           [Change (js "typing")] [Submit]).
  - exists [Change (js "hi")]. reflexivity.
  - reflexivity.
  - intros H. vm_compute in H. discriminate H.
  - reflexivity.
  - reflexivity.
  - reflexivity.
  - reflexivity.
Defined.

Lemma filter_unmounts_on_unprintable_content_witness :
  run printInteger Filter (typed Filter (js "hi"))
    (Submit ::
     settling
       (answers (JObj [(js "content",
                        JArr [JNum 1%Z; JObj [(js "toString", JStr (js "x"))]])]))
       [Change (js "typing")] [Submit])
  = Some (Unmounted TypeError).
Proof.
  apply (@filter_unmounts_on_unprintable_content Z printInteger
           (typed Filter (js "hi"))
           (answers (JObj [(js "content",
                            JArr [JNum 1%Z;
                                  JObj [(js "toString", JStr (js "x"))]])]))
           (JObj [(js "content",
                   JArr [JNum 1%Z; JObj [(js "toString", JStr (js "x"))]])])
           [Change (js "typing")] [Submit]).
  - exists [Change (js "hi")]. reflexivity.
  - reflexivity.
  - intros H. vm_compute in H. discriminate H.
  - reflexivity.
  - reflexivity.
  - reflexivity.
  - reflexivity.
Defined.

Lemma view_follows_the_request_witness :
  submitLabel (render (app (afterEvents Filter secondAttempt)))
  = js "전송 중..."
  /\ textareaDisabled (render (app (afterEvents Filter secondAttempt))) = true.
Proof.
  destruct (@view_follows_the_request Z printInteger Filter
              (afterEvents Filter secondAttempt)) as [Htext [Hlabel _]].
  - exists secondAttempt. reflexivity.
  - split; [apply Hlabel | apply Htext]; discriminate.
Defined.

Lemma retry_after_failure_witness :
  exists w' reply,
    run printInteger Chat (typed Chat (js "hi"))
      ((Submit :: settling (Unreachable Z NetworkError) [] [])
         ++ Change (js " hi again ") :: Submit
         :: settling (answers (JObj [(js "message", JStr (js "yo"))])) [] [])
    = Some (Mounted w')
    /\ messages (app w') =
       messages (app (typed Chat (js "hi")))
       ++ [ userMessage (app (typed Chat (js "hi")));
            {| role := js "user"; content := JStr (trim (js " hi again ")) |};
            assistantMessage reply ]
    /\ isLoading (app w') = false
    /\ error (app w') = [].
Proof.
  apply (@retry_after_failure Z printInteger Chat (typed Chat (js "hi"))
           (Unreachable Z NetworkError)
           (answers (JObj [(js "message", JStr (js "yo"))]))
           NetworkError (JObj [(js "message", JStr (js "yo"))])
           (js " hi again ") [] [] [] []).
  - exists [Change (js "hi")]. reflexivity.
  - reflexivity.
  - intros H. vm_compute in H. discriminate H.
  - reflexivity.
  - intros H. vm_compute in H. discriminate H.
  - reflexivity.
  - reflexivity.
  - reflexivity.
  - reflexivity.
  - reflexivity.
  - reflexivity.
Defined.

Lemma user_messages_are_stable_witness :
  Forall (fun m => role m = js "user" ->
                   exists s, content m = @JStr Z s /\ trim s = s /\ s <> [])
    (messages (app (afterEvents Chat conversation))).
Proof.
  apply (@user_messages_are_stable Z printInteger Chat
           (afterEvents Chat conversation)).
  exists conversation. reflexivity.
Defined.
